(** * Pong: the state reducer of [src/pong.ts], embedded and verified

    The game is a left fold ([scan]) of [reduceState] over a stream of events,
    seeded with [initialState].  This file embeds the pure part of the program
    (vectors, bodies, the collision step [objInteractionHandling], [tick] and
    [reduceState]), the fold, and the subscription that ends when the view is
    handed a finished game, and proves properties of them.  The observables
    that produce the events and the drawing done by [updateView] are not
    modelled.

    Numbers.  A TypeScript [number] that holds a coordinate, a speed, an
    opacity or the difficulty is a rational [Q] (exact arithmetic; the
    constants of the program, 600, 75/2, 25/20, 0.25, are all exactly
    representable).  A [number] that only ever holds an integer (scores, the
    winner's number, brick ids, hit counts, the elapsed counter) is a [Z].
    The program computes in binary64, which rounds where [Q] does not, so
    the theorems below say which branch a step takes and which fields it
    changes, and state numeric facts only where the doubles are exact; no
    bound is claimed that rounding could break.

    Randomness.  [createBall] draws [Math.random()] once.  The draw is an
    explicit argument [rnd]: one for the ball of [initialState], and one
    offered to every event of the fold (it is consumed only when a tick
    re-serves the ball).

    Exceptions.  Reading a field of [undefined] raises a [TypeError] in
    JavaScript.  [createBar] builds a body without a [velocity], so
    [velocity] is an [option] and the functions that read it live in the
    [result] monad. *)

From Stdlib Require Import QArith Qabs Qround ZArith List String Bool Lia Lqa.
From Stdlib Require Import Permutation.
Import ListNotations.

Open Scope Q_scope.

(** ** JavaScript numbers and exceptions *)

Definition Qleb (a b : Q) : bool := Qle_bool a b.
Definition Qgeb (a b : Q) : bool := Qle_bool b a.
Definition Qltb (a b : Q) : bool := negb (Qle_bool b a).
Definition Qgtb (a b : Q) : bool := negb (Qle_bool a b).

Infix "<=?" := Qleb (at level 70, no associativity) : Q_scope.
Infix ">=?" := Qgeb (at level 70, no associativity) : Q_scope.
Infix "<?" := Qltb (at level 70, no associativity) : Q_scope.
Infix ">?" := Qgtb (at level 70, no associativity) : Q_scope.

(** [Math.sign]: -1, 0 or 1. *)
Definition Math_sign (a : Q) : Z := Z.sgn (Qnum a).

(** A number used as a condition is true unless it is zero. *)
Definition truthy (n : Z) : bool := negb (n =? 0)%Z.

Inductive exn : Type :=
| TypeError (msg : string)
| Error (msg : string).

Inductive result (A : Type) : Type :=
| Ok (a : A)
| Throw (e : exn).

Arguments Ok {A} a.
Arguments Throw {A} e.

Definition bind {A B : Type} (m : result A) (k : A -> result B) : result B :=
  match m with
  | Ok a => k a
  | Throw e => Throw e
  end.

Notation "x <- m ;; k" := (bind m (fun x => k))
  (at level 61, m at next level, right associativity).

(** ** Constants *)

Module Constants.
Definition CanvasSize : Q := 600.
Definition BallRadius : Q := 7.
Definition BarHeight : Q := 75.
Definition BarWidth : Q := 6.
Definition Zero : Q := 0.
Definition InitalBallVelocity : Q := 1.
Definition maxBounceAngle : Q := 500.
Definition maxScore : Z := 7.
Definition playerBarNum : Z := 1.
Definition computerBarNum : Z := 2.
Definition opacityReduction : Q := 0.25.
End Constants.

(** ** Vectors *)

Module Vector.
Record t : Type := new { x : Q; y : Q }.

Definition add (this v : t) : t := new (x this + x v) (y this + y v).
Definition scale (this : t) (s : Q) : t := new (x this * s) (y this * s).
Definition flipY (this : t) : t := new (x this) (- y this).
Definition flipX (this : t) : t := new (- x this) (y this).
Definition alterY (this : t) (y' : Q) : t := new (x this) y'.
Definition Zero : t := new 0 0.
End Vector.

(** depending on where the ball bounces on the bar the velocity vector is of
    different speeds (and flipped) *)
Definition calcBouncedVelocity (currVec : Vector.t) (incomingPos : Q) : Vector.t :=
  Vector.new (- Vector.x currVec)
    (Constants.maxBounceAngle * - (incomingPos + Constants.BarHeight / 2)
       / (Constants.BarHeight / 2) / 100).

(** ** Bodies *)

Module NewtonianBody.
Record t : Type := make {
  position : Vector.t;
  acceleration : option Vector.t;
  velocity : option Vector.t;
  size : Q
}.

Definition with_position (o : t) (p : Vector.t) : t :=
  make p (acceleration o) (velocity o) (size o).
Definition with_velocity (o : t) (v : Vector.t) : t :=
  make (position o) (acceleration o) (Some v) (size o).

(** [o.velocity], about to be dereferenced. *)
Definition the_velocity (o : t) : result Vector.t :=
  match velocity o with
  | Some v => Ok v
  | None => Throw (TypeError "velocity is undefined")
  end.
End NewtonianBody.

Module BrickBody.
Record t : Type := make {
  id : Z;
  position : Vector.t;
  width : Q;
  height : Q;
  opacity : Q;
  numberOfHitsLeft : Z
}.
End BrickBody.

(** The audio element of the breakout mode, kept as the path it plays. *)
Inductive HTMLAudioElement : Type :=
| Audio (src : string).

Record State : Type := mkState {
  time : Z;
  playerBar : NewtonianBody.t;
  computerBar : NewtonianBody.t;
  ball : NewtonianBody.t;
  p1Score : Z;
  p2Score : Z;
  endOfGame : Z;
  computerDifficulty : Q;
  isBreakout : bool;
  breakoutAddedEffects : HTMLAudioElement;
  bricks : list BrickBody.t;
  bricksToRemove : list Z
}.

(** ** Events *)

Inductive Event : Type :=
| Tick (elapsed : Z)
| Slide (direction : Q)
| Restart (isRestart : bool)
| SetDifficulty (difficVal : Q)
| ToggleBreakout (isBreak : bool).

(** ** Construction of the initial state *)

Definition createBar (p : Z) : NewtonianBody.t :=
  NewtonianBody.make
    (Vector.new
       (if (p =? 1)%Z then Constants.CanvasSize / 8
        else if (p =? 2)%Z then 7 * Constants.CanvasSize / 8
        else 0)
       (Constants.CanvasSize / 2 - Constants.BarHeight / 2))
    (Some Vector.Zero)
    None
    Constants.BarHeight.

(** [rnd] is the value of [Math.random()]. *)
Definition createBall (rnd : Q) : NewtonianBody.t :=
  NewtonianBody.make
    (Vector.new (Constants.CanvasSize / 2) (Constants.CanvasSize / 2))
    (Some Vector.Zero)
    (Some (Vector.new (if rnd >? 0.5 then 3 else -3) Constants.Zero))
    Constants.BallRadius.

Definition createBrick (wid h opac : Q) (numHitLeft : Z) (i : Z) (pos : Vector.t)
  : BrickBody.t :=
  BrickBody.make i pos wid h opac numHitLeft.

(** [array.map((item, index) => f item index)] *)
Fixpoint mapi_from {A B : Type} (f : A -> Z -> B) (index : Z) (l : list A) : list B :=
  match l with
  | [] => []
  | item :: l' => f item index :: mapi_from f (index + 1)%Z l'
  end.

Definition initialiseBricks : list BrickBody.t :=
  let tempBrickHeight : Q := 40 in
  let pixelsOffCenter : Q := 20 in
  let defaultBrick := createBrick 7 (tempBrickHeight - 2) 1 4 in
  mapi_from
    (fun item index =>
       item (index + 1)%Z
         (Vector.new
            (Constants.CanvasSize / 2
             + (if (index mod 2 =? 0)%Z then pixelsOffCenter else - pixelsOffCenter))
            (inject_Z index * tempBrickHeight)))
    0%Z
    (repeat defaultBrick (Z.to_nat (Qfloor (Constants.CanvasSize / tempBrickHeight)))).

(** ** One simulation step *)

Definition incrementScore (score : Z) (hasWonPoint : bool) : Z :=
  (score + (if hasWonPoint then 1 else 0))%Z.

Definition calculateBallBounce (ball : NewtonianBody.t)
    (isballBounceOnBorder isballBounceOnPaddle : bool)
    (paddleAimVerticalError : Q) (isBallBounceOnBrick : bool)
  : result NewtonianBody.t :=
  if isballBounceOnPaddle then
    v <- NewtonianBody.the_velocity ball ;;
    Ok (NewtonianBody.with_velocity ball (calcBouncedVelocity v paddleAimVerticalError))
  else if isballBounceOnBorder then
    v <- NewtonianBody.the_velocity ball ;;
    Ok (NewtonianBody.with_velocity ball (Vector.flipY v))
  else if isBallBounceOnBrick then
    (* brick bounce has a special motion (returns at the exact same angle it
       came in at) *)
    v <- NewtonianBody.the_velocity ball ;;
    Ok (NewtonianBody.with_velocity ball (Vector.flipY (Vector.flipX v)))
  else Ok ball.

Definition moveObject (o : NewtonianBody.t) : result NewtonianBody.t :=
  v <- NewtonianBody.the_velocity o ;;
  Ok (NewtonianBody.with_position o (Vector.add (NewtonianBody.position o) v)).

(** [array.includes(true)] *)
Definition includes_true (l : list bool) : bool := existsb (fun b => b) l.

(** The predicates and helpers that [objInteractionHandling] declares on the
    state it receives (the ball has already been moved). *)

Definition isballp1Endzone (s : State) : bool :=
  Vector.x (NewtonianBody.position (ball s)) <=? Constants.Zero.

Definition isballp2Endzone (s : State) : bool :=
  Vector.x (NewtonianBody.position (ball s)) >=? Constants.CanvasSize.

Definition isballBounceOnLeftBar (s : State) : bool :=
  let ballPos := NewtonianBody.position (ball s) in
  let playBarPos := NewtonianBody.position (playerBar s) in
  (Vector.x ballPos - NewtonianBody.size (ball s) - Constants.BarWidth
     <=? Constants.CanvasSize / 8)
  && (Vector.x ballPos >=? Constants.CanvasSize / 8 - 10)
  && ((Vector.y ballPos >=? Vector.y playBarPos)
      && (Vector.y ballPos <=? Vector.y playBarPos + Constants.BarHeight)).

Definition isballBounceOnRightBar (s : State) : bool :=
  let ballPos := NewtonianBody.position (ball s) in
  let compBarPos := NewtonianBody.position (computerBar s) in
  (Vector.x ballPos + NewtonianBody.size (ball s) >=? 7 * Constants.CanvasSize / 8)
  && (Vector.x ballPos <=? 7 * Constants.CanvasSize / 8 + 10)
  && ((Vector.y ballPos >=? Vector.y compBarPos)
      && (Vector.y ballPos <=? Vector.y compBarPos + Constants.BarHeight)).

Definition isballBounceOnBorder (s : State) : bool :=
  let ballPos := NewtonianBody.position (ball s) in
  (Vector.y ballPos <=? Constants.Zero) || (Vector.y ballPos >=? Constants.CanvasSize).

(** gives a relative position of the ball to the paddle (anchored at the most
    upper point of the paddle) *)
Definition paddleAimVerticalError (s : State) : Q :=
  let ballPos := NewtonianBody.position (ball s) in
  if isballBounceOnLeftBar s
  then Vector.y (NewtonianBody.position (playerBar s)) - Vector.y ballPos
  else if isballBounceOnRightBar s
  then Vector.y (NewtonianBody.position (computerBar s)) - Vector.y ballPos
  else 0.

Definition isBallBounceOnBrick (s : State) (b : BrickBody.t) : bool :=
  let ballPos := NewtonianBody.position (ball s) in
  let r := NewtonianBody.size (ball s) in
  ((Vector.x (BrickBody.position b) <=? Vector.x ballPos + r)
   && (Vector.x ballPos - r <=? Vector.x (BrickBody.position b) + BrickBody.width b))
  && ((Vector.y (BrickBody.position b) <=? Vector.y ballPos + r)
      && (Vector.y ballPos - r <=? Vector.y (BrickBody.position b) + BrickBody.height b)).

Definition setBrickOpacity (b : BrickBody.t) : BrickBody.t :=
  BrickBody.make (BrickBody.id b) (BrickBody.position b) (BrickBody.width b)
    (BrickBody.height b)
    (BrickBody.opacity b - Constants.opacityReduction)
    (BrickBody.numberOfHitsLeft b - 1)%Z.

(** [!Boolean(b.numberOfHitsLeft)] *)
Definition brickToRemove (b : BrickBody.t) : bool :=
  negb (truthy (BrickBody.numberOfHitsLeft b)).

Definition brickToKeep (b : BrickBody.t) : bool :=
  (BrickBody.numberOfHitsLeft b >? 0)%Z.

Definition getBrickID (b : BrickBody.t) : Z := BrickBody.id b.

(** The computer bar of [mainState]: the bar follows the ball, one step of
    [computerDifficulty] per tick, whenever the ball moves horizontally.
    [vel] is [s.ball.velocity]. *)
Definition trackBall (s : State) (vel : Vector.t) : NewtonianBody.t :=
  let ballPos := NewtonianBody.position (ball s) in
  let barY := Vector.y (NewtonianBody.position (computerBar s)) in
  if truthy (Math_sign (Vector.x vel)) then
    NewtonianBody.with_position (computerBar s)
      (Vector.alterY (NewtonianBody.position (computerBar s))
         (if (Math_sign (barY - Vector.y ballPos + Constants.BarHeight / 2) =? -1)%Z
          then barY + computerDifficulty s
          else barY - computerDifficulty s))
  else computerBar s.

(** holding the number of the player who won *)
Definition winner (newP1Score newP2Score : Z) : Z :=
  if (newP1Score =? Constants.maxScore)%Z then Constants.playerBarNum
  else if (newP2Score =? Constants.maxScore)%Z then Constants.computerBarNum
  else 0%Z.

Definition objInteractionHandling (rnd : Q) (s : State) : result State :=
  let newP1Score := incrementScore (p1Score s) (isballp2Endzone s) in
  let newP2Score := incrementScore (p2Score s) (isballp1Endzone s) in
  (* general state ensuring no collisions with basic objects (independent of
     game mode); it reads [s.ball.velocity.x] *)
  vel <- NewtonianBody.the_velocity (ball s) ;;
  let mainComputerBar := trackBall s vel in
  let mainEndOfGame := winner newP1Score newP2Score in
  if isBreakout s then
    let hit := includes_true (map (isBallBounceOnBrick s) (bricks s)) in
    let newBricksState :=
      map (fun x => if isBallBounceOnBrick s x then setBrickOpacity x else x) (bricks s) in
    newBall <-
      (if isballp1Endzone s || isballp2Endzone s
       then Ok (createBall rnd)
       else calculateBallBounce (ball s) (isballBounceOnBorder s)
              (isballBounceOnLeftBar s || isballBounceOnRightBar s)
              (paddleAimVerticalError s) hit) ;;
    Ok {| time := time s;
          playerBar := playerBar s;
          computerBar := mainComputerBar;
          ball := newBall;
          p1Score := newP1Score;
          p2Score := newP2Score;
          endOfGame := mainEndOfGame;
          computerDifficulty := computerDifficulty s;
          isBreakout := isBreakout s;
          breakoutAddedEffects := breakoutAddedEffects s;
          bricks := if hit then filter brickToKeep newBricksState else bricks s;
          bricksToRemove :=
            bricksToRemove s ++ map getBrickID (filter brickToRemove newBricksState) |}
  else
    newBall <-
      (if isballp1Endzone s || isballp2Endzone s
       then Ok (createBall rnd)
       else calculateBallBounce (ball s) (isballBounceOnBorder s)
              (isballBounceOnLeftBar s || isballBounceOnRightBar s)
              (paddleAimVerticalError s) false) ;;
    Ok {| time := time s;
          playerBar := playerBar s;
          computerBar := mainComputerBar;
          ball := newBall;
          p1Score := newP1Score;
          p2Score := newP2Score;
          endOfGame := mainEndOfGame;
          computerDifficulty := computerDifficulty s;
          isBreakout := isBreakout s;
          breakoutAddedEffects := breakoutAddedEffects s;
          bricks := bricks s;
          bricksToRemove := bricksToRemove s |}.

(** [{...s, time: elapsed, ball: b}] *)
Definition with_time_ball (s : State) (elapsed : Z) (b : NewtonianBody.t) : State :=
  {| time := elapsed;
     playerBar := playerBar s;
     computerBar := computerBar s;
     ball := b;
     p1Score := p1Score s;
     p2Score := p2Score s;
     endOfGame := endOfGame s;
     computerDifficulty := computerDifficulty s;
     isBreakout := isBreakout s;
     breakoutAddedEffects := breakoutAddedEffects s;
     bricks := bricks s;
     bricksToRemove := bricksToRemove s |}.

Definition tick (rnd : Q) (s : State) (elapsed : Z) : result State :=
  movedBall <- moveObject (ball s) ;;
  objInteractionHandling rnd (with_time_ball s elapsed movedBall).

(** The state [tick] hands to [objInteractionHandling] when the ball moves
    with velocity [v]: [{...s, time: elapsed, ball: moveObject(s.ball)}]. *)
Definition moved (s : State) (elapsed : Z) (v : Vector.t) : State :=
  with_time_ball s elapsed
    (NewtonianBody.with_position (ball s)
       (Vector.add (NewtonianBody.position (ball s)) v)).

(** [{...s, playerBar: b}], [{...s, isBreakout: v}], [{...s, computerDifficulty: d}] *)
Definition with_playerBar (s : State) (b : NewtonianBody.t) : State :=
  {| time := time s;
     playerBar := b;
     computerBar := computerBar s;
     ball := ball s;
     p1Score := p1Score s;
     p2Score := p2Score s;
     endOfGame := endOfGame s;
     computerDifficulty := computerDifficulty s;
     isBreakout := isBreakout s;
     breakoutAddedEffects := breakoutAddedEffects s;
     bricks := bricks s;
     bricksToRemove := bricksToRemove s |}.

Definition with_isBreakout (s : State) (v : bool) : State :=
  {| time := time s;
     playerBar := playerBar s;
     computerBar := computerBar s;
     ball := ball s;
     p1Score := p1Score s;
     p2Score := p2Score s;
     endOfGame := endOfGame s;
     computerDifficulty := computerDifficulty s;
     isBreakout := v;
     breakoutAddedEffects := breakoutAddedEffects s;
     bricks := bricks s;
     bricksToRemove := bricksToRemove s |}.

Definition with_computerDifficulty (s : State) (d : Q) : State :=
  {| time := time s;
     playerBar := playerBar s;
     computerBar := computerBar s;
     ball := ball s;
     p1Score := p1Score s;
     p2Score := p2Score s;
     endOfGame := endOfGame s;
     computerDifficulty := d;
     isBreakout := isBreakout s;
     breakoutAddedEffects := breakoutAddedEffects s;
     bricks := bricks s;
     bricksToRemove := bricksToRemove s |}.

(** The position of the player bar after [Slide direction]: the move is taken
    only if it keeps the bar within the bounds of the canvas. *)
Definition slidePosition (s : State) (direction : Q) : Vector.t :=
  let candidate :=
    Vector.add (NewtonianBody.position (playerBar s)) (Vector.new 0 direction) in
  if (Vector.y candidate <=? Constants.CanvasSize - Constants.BarHeight)
     && (Vector.y candidate >=? Constants.Zero)
  then candidate
  else NewtonianBody.position (playerBar s).

Section Game.

(** The draw made for the ball of [initialState]. *)
Variable rnd0 : Q.

Definition initialState : State := {|
  time := 0;
  playerBar := createBar Constants.playerBarNum;
  computerBar := createBar Constants.computerBarNum;
  ball := createBall rnd0;
  p1Score := 0;
  p2Score := 0;
  endOfGame := 0;
  isBreakout := false;
  breakoutAddedEffects := Audio "musc/SpecialRequest-SpectralFrequency.mp3";
  computerDifficulty := 25 / 20;
  bricks := initialiseBricks;
  bricksToRemove := []
|}.

(** used as a part of scan which is the accumulated current state.  The
    event type is closed, so the last arm of the source (throwing
    "unrecognised event") has no counterpart. *)
Definition reduceState (rnd : Q) (s : State) (eve : Event) : result State :=
  match eve with
  | Tick elapsed => tick rnd s elapsed
  | Slide direction =>
      Ok (with_playerBar s
            (NewtonianBody.with_position (playerBar s) (slidePosition s direction)))
  | Restart _ => Ok initialState
  | ToggleBreakout isBreak => Ok (with_isBreakout s isBreak)
  | SetDifficulty difficVal => Ok (with_computerDifficulty s (difficVal / 20))
  end.

(** [scan(reduceState, initialState)]: each event comes with the random
    draw available while it is reduced.  An exception ends the fold. *)
Fixpoint scan (s : State) (evs : list (Event * Q)) : result State :=
  match evs with
  | [] => Ok s
  | (eve, rnd) :: evs' => s' <- reduceState rnd s eve ;; scan s' evs'
  end.

Definition run (evs : list (Event * Q)) : result State := scan initialState evs.

(** The states the view can observe. *)
Definition reachable (s : State) : Prop := exists evs, run evs = Ok s.

End Game.


(** ** Properties of states used as invariants of the fold *)

Definition playerBar_in_canvas (s : State) : Prop :=
  0 <= Vector.y (NewtonianBody.position (playerBar s))
    <= Constants.CanvasSize - Constants.BarHeight.

Definition bars_on_their_columns (s : State) : Prop :=
  Vector.x (NewtonianBody.position (playerBar s)) = Constants.CanvasSize / 8
  /\ Vector.x (NewtonianBody.position (computerBar s)) = 7 * Constants.CanvasSize / 8.

Definition ball_speed_ok (s : State) : Prop :=
  exists v, NewtonianBody.velocity (ball s) = Some v
            /\ Qabs (Vector.x v) == 3.

Definition ball_in_field (s : State) : Prop :=
  0 < Vector.x (NewtonianBody.position (ball s)) < Constants.CanvasSize.

Definition endOfGame_follows_scores (s : State) : Prop :=
  endOfGame s = winner (p1Score s) (p2Score s).

Definition bricks_alive (s : State) : Prop :=
  Forall (fun b => (0 < BrickBody.numberOfHitsLeft b)%Z) (bricks s).

(** Every brick of the grid is either still in [bricks] or listed in
    [bricksToRemove], and nowhere twice. *)
Definition bricks_accounted (s : State) : Prop :=
  Permutation (map getBrickID (bricks s) ++ bricksToRemove s)
              (map getBrickID initialiseBricks).

(* INVARIANT-DEFS *)

(** ** Observing a fold *)

(** What is seen of the outcome of a fold through [f]. *)
Definition observe {A B : Type} (f : A -> B) (r : result A) : result B :=
  x <- r ;; Ok (f x).

(** The state a fold ends in ([d] if it threw). *)
Definition outcome (d : State) (r : result State) : State :=
  match r with
  | Ok s => s
  | Throw _ => d
  end.

(** [n] ticks of the timer, each with the draw [rnd]. *)
Definition ticks (n : nat) (rnd : Q) : list (Event * Q) :=
  map (fun k => (Tick (Z.of_nat k), rnd)) (seq 0 n).

(** [n] presses of a key that slides the player bar by [direction]. *)
Definition presses (n : nat) (direction : Q) : list (Event * Q) :=
  repeat (Slide direction, 0) n.

(** A state of the breakout mode in which the next tick takes the ball, with
    velocity (3, -1), onto the top border (y = 0) and into the first brick
    of the grid (x = 320). *)
Definition ball_into_brick_on_border : State :=
  with_isBreakout
    (with_time_ball (initialState 0) 0
       (NewtonianBody.make (Vector.new 317 1) (Some Vector.Zero)
          (Some (Vector.new 3 (-1))) Constants.BallRadius))
    true.

(** ** The subscription *)

(** [scan(reduceState, initialState).subscribe(updateView)]: the states handed
    to the view, one per event.  [updateView] unsubscribes as soon as it is
    handed a state whose [endOfGame] is set, so that state is the last one;
    the events after it are not reduced. *)
Fixpoint subscribe (rnd0 : Q) (s : State) (evs : list (Event * Q))
  : result (list State) :=
  match evs with
  | [] => Ok []
  | (eve, rnd) :: evs' =>
      s' <- reduceState rnd0 rnd s eve ;;
      if truthy (endOfGame s') then Ok [s']
      else rest <- subscribe rnd0 s' evs' ;; Ok (s' :: rest)
  end.

Definition sub (rnd0 : Q) (evs : list (Event * Q)) : result (list State) :=
  subscribe rnd0 (initialState rnd0) evs.

(** The states of a subscription ([[]] if it threw). *)
Definition states_of (r : result (list State)) : list State :=
  match r with
  | Ok l => l
  | Throw _ => []
  end.

(** ** What is appended to [bricksToRemove] *)

(** The ids a reduction appends to [bricksToRemove]: what the new list holds
    after the length of the old one.  [Restart] appends nothing; it returns
    the empty list of [initialState]. *)
Definition appended (s : State) (eve : Event) (s' : State) : list Z :=
  match eve with
  | Restart _ => []
  | _ => skipn (List.length (bricksToRemove s)) (bricksToRemove s')
  end.

(** All the ids appended along a fold, in order. *)
Fixpoint appended_along (rnd0 : Q) (s : State) (evs : list (Event * Q))
  : result (list Z) :=
  match evs with
  | [] => Ok []
  | (eve, rnd) :: evs' =>
      s' <- reduceState rnd0 rnd s eve ;;
      rest <- appended_along rnd0 s' evs' ;;
      Ok (appended s eve s' ++ rest)
  end.

(** A short game of the breakout mode: the mode is switched on while the
    ball is inside brick 8, which the next four ticks wear out. *)
Definition brick_game : list (Event * Q) :=
  ticks 2 0 ++ [(ToggleBreakout true, 0)] ++ ticks 4 0.

(** ** Bricks in play *)

(** A brick of the grid after some hits: where it was laid, with between one
    and four hits left and a quarter of opacity for each. *)
Definition brick_worn (b : BrickBody.t) : Prop :=
  (exists b0, In b0 initialiseBricks
              /\ BrickBody.id b = BrickBody.id b0
              /\ BrickBody.position b = BrickBody.position b0
              /\ BrickBody.width b = BrickBody.width b0
              /\ BrickBody.height b = BrickBody.height b0)
  /\ (1 <= BrickBody.numberOfHitsLeft b <= 4)%Z
  /\ BrickBody.opacity b
     == inject_Z (BrickBody.numberOfHitsLeft b) * Constants.opacityReduction.

(** The scores of a game in progress or just won. *)
Definition scores_in_range (s : State) : Prop :=
  (0 <= p1Score s <= Constants.maxScore)%Z /\ (0 <= p2Score s <= Constants.maxScore)%Z.

(** * Verification *)

(** ** Comparisons of numbers *)

Lemma Qleb_le (a b : Q) : (a <=? b) = true <-> a <= b.
Proof. apply Qle_bool_iff. Qed.

Lemma Qleb_gt (a b : Q) : (a <=? b) = false <-> b < a.
Proof.
  unfold Qleb. rewrite <- not_true_iff_false, Qle_bool_iff.
  split; [apply Qnot_le_lt | apply Qlt_not_le].
Qed.

Lemma Qgeb_ge (a b : Q) : (a >=? b) = true <-> b <= a.
Proof. apply Qle_bool_iff. Qed.

Lemma Qgeb_lt (a b : Q) : (a >=? b) = false <-> a < b.
Proof. unfold Qgeb. apply (Qleb_gt b a). Qed.

Lemma Qgtb_gt (a b : Q) : (a >? b) = true <-> b < a.
Proof. unfold Qgtb. rewrite negb_true_iff. apply Qleb_gt. Qed.


Lemma Math_sign_truthy (a : Q) : truthy (Math_sign a) = true <-> ~ a == 0.
Proof.
  unfold truthy, Math_sign, Qeq. cbn [Qnum Qden].
  rewrite Z.mul_1_r, Z.mul_0_l, negb_true_iff, Z.eqb_neq.
  destruct (Qnum a); cbn; split; intros H; try discriminate; try lia.
Qed.

Lemma Qplus_0_r_eq (q : Q) : q + 0 = q.
Proof.
  destruct q as [n d]. unfold Qplus. cbn [Qnum Qden].
  rewrite Z.mul_1_r, Z.mul_0_l, Z.add_0_r, Pos.mul_1_r. reflexivity.
Qed.

(** ** Records rebuilt with their own fields *)

Lemma with_position_same (o : NewtonianBody.t) :
  NewtonianBody.with_position o (NewtonianBody.position o) = o.
Proof. destruct o; reflexivity. Qed.

Lemma with_velocity_same (o : NewtonianBody.t) (v : Vector.t) :
  NewtonianBody.velocity o = Some v -> NewtonianBody.with_velocity o v = o.
Proof. destruct o; cbn; intros ->; reflexivity. Qed.

Lemma with_playerBar_same (s : State) : with_playerBar s (playerBar s) = s.
Proof. destruct s; reflexivity. Qed.

(** ** The step functions, unfolded once *)

Lemma calculateBallBounce_velocity (b : NewtonianBody.t) (v : Vector.t)
    (border paddle : bool) (err : Q) (brick : bool) :
  NewtonianBody.velocity b = Some v ->
  calculateBallBounce b border paddle err brick
  = Ok (NewtonianBody.with_velocity b
          (if paddle then calcBouncedVelocity v err
           else if border then Vector.flipY v
           else if brick then Vector.flipY (Vector.flipX v)
           else v)).
Proof.
  intros Hv. unfold calculateBallBounce, NewtonianBody.the_velocity.
  rewrite Hv. destruct paddle, border, brick; cbn; try reflexivity;
    now rewrite (with_velocity_same b v Hv).
Qed.

Lemma tick_no_velocity (rnd : Q) (s : State) (elapsed : Z) :
  NewtonianBody.velocity (ball s) = None ->
  tick rnd s elapsed = Throw (TypeError "velocity is undefined").
Proof.
  intros Hv. unfold tick, moveObject, NewtonianBody.the_velocity.
  rewrite Hv. reflexivity.
Qed.

Lemma tick_moved (rnd : Q) (s : State) (elapsed : Z) (v : Vector.t) :
  NewtonianBody.velocity (ball s) = Some v ->
  tick rnd s elapsed = objInteractionHandling rnd (moved s elapsed v).
Proof.
  intros Hv. unfold tick, moveObject, NewtonianBody.the_velocity.
  rewrite Hv. reflexivity.
Qed.

Lemma moved_velocity (s : State) (elapsed : Z) (v : Vector.t) :
  NewtonianBody.velocity (ball s) = Some v ->
  NewtonianBody.velocity (ball (moved s elapsed v)) = Some v.
Proof. intros Hv. exact Hv. Qed.

(** What a successful tick produces, field by field. *)
Lemma tick_inv (rnd : Q) (s : State) (elapsed : Z) (s' : State) :
  tick rnd s elapsed = Ok s' ->
  exists v, NewtonianBody.velocity (ball s) = Some v /\
    let m := moved s elapsed v in
    let hit := includes_true (map (isBallBounceOnBrick m) (bricks s)) in
    let newBricksState :=
      map (fun x => if isBallBounceOnBrick m x then setBrickOpacity x else x) (bricks s) in
    time s' = elapsed /\
    playerBar s' = playerBar s /\
    computerBar s' = trackBall m v /\
    p1Score s' = incrementScore (p1Score s) (isballp2Endzone m) /\
    p2Score s' = incrementScore (p2Score s) (isballp1Endzone m) /\
    endOfGame s' = winner (p1Score s') (p2Score s') /\
    computerDifficulty s' = computerDifficulty s /\
    isBreakout s' = isBreakout s /\
    breakoutAddedEffects s' = breakoutAddedEffects s /\
    ball s' =
      (if isballp1Endzone m || isballp2Endzone m then createBall rnd
       else NewtonianBody.with_velocity (ball m)
              (if isballBounceOnLeftBar m || isballBounceOnRightBar m
               then calcBouncedVelocity v (paddleAimVerticalError m)
               else if isballBounceOnBorder m then Vector.flipY v
               else if isBreakout s && hit then Vector.flipY (Vector.flipX v)
               else v)) /\
    bricks s' =
      (if isBreakout s && hit then filter brickToKeep newBricksState else bricks s) /\
    bricksToRemove s' =
      (if isBreakout s
       then bricksToRemove s ++ map getBrickID (filter brickToRemove newBricksState)
       else bricksToRemove s).
Proof.
  intros H. destruct (NewtonianBody.velocity (ball s)) as [v|] eqn:Hv.
  2:{ rewrite tick_no_velocity in H by assumption. discriminate. }
  exists v. split; [reflexivity|].
  rewrite (tick_moved rnd s elapsed v Hv) in H.
  pose proof (moved_velocity s elapsed v Hv) as Hmv.
  unfold objInteractionHandling in H.
  unfold NewtonianBody.the_velocity in H. rewrite Hmv in H. cbn [bind] in H.
  change (isBreakout (moved s elapsed v)) with (isBreakout s) in H.
  change (bricks (moved s elapsed v)) with (bricks s) in H.
  destruct (isBreakout s);
    destruct (isballp1Endzone (moved s elapsed v) || isballp2Endzone (moved s elapsed v))
      eqn:Hez;
    try rewrite (calculateBallBounce_velocity _ v _ _ _ _ Hmv) in H;
    cbn [bind] in H; injection H as <-; cbn;
    repeat split; try reflexivity; rewrite Hez; reflexivity.
Qed.

(** ** The fold *)

Section Fold.

Variable rnd0 : Q.

Lemma scan_app (s : State) (evs1 evs2 : list (Event * Q)) :
  scan rnd0 s (evs1 ++ evs2) = (s' <- scan rnd0 s evs1 ;; scan rnd0 s' evs2).
Proof.
  revert s. induction evs1 as [|[eve rnd] evs1 IH]; intros s; cbn; [reflexivity|].
  destruct (reduceState rnd0 rnd s eve); cbn; [apply IH | reflexivity].
Qed.

Lemma scan_invariant (P : State -> Prop) :
  (forall rnd s eve s', P s -> reduceState rnd0 rnd s eve = Ok s' -> P s') ->
  forall evs s s', P s -> scan rnd0 s evs = Ok s' -> P s'.
Proof.
  intros Hstep evs. induction evs as [|[eve rnd] evs IH]; intros s s' Hs H; cbn in H.
  - now injection H as <-.
  - destruct (reduceState rnd0 rnd s eve) as [s1|] eqn:E; cbn in H; [|discriminate].
    eapply IH; [|exact H]. eapply Hstep; eassumption.
Qed.

Lemma run_invariant (P : State -> Prop) :
  P (initialState rnd0) ->
  (forall rnd s eve s', P s -> reduceState rnd0 rnd s eve = Ok s' -> P s') ->
  forall evs s, run rnd0 evs = Ok s -> P s.
Proof.
  intros H0 Hstep evs s H. eapply scan_invariant; eauto.
Qed.

Lemma run_snoc (evs : list (Event * Q)) (eve : Event) (rnd : Q) :
  run rnd0 (evs ++ [(eve, rnd)])
  = (s <- run rnd0 evs ;; reduceState rnd0 rnd s eve).
Proof.
  unfold run. rewrite scan_app. destruct (scan rnd0 (initialState rnd0) evs); cbn;
    [|reflexivity].
  destruct (reduceState rnd0 rnd a eve); reflexivity.
Qed.

End Fold.

(** Splits a successful reduction by the kind of its event; a tick is opened
    with [tick_inv]. *)
Ltac step_cases H :=
  match type of H with
  | reduceState _ _ _ ?eve = Ok _ =>
      destruct eve as [elapsed|direction|isRestart|difficVal|isBreak];
      [ apply tick_inv in H;
        destruct H as (v & Hvel & Htime & HplayerBar & HcomputerBar & Hp1 & Hp2
                       & HendOfGame & Hdifficulty & HisBreakout & Heffects
                       & Hball & Hbricks & HbricksToRemove)
      | cbn in H; injection H as <-
      | cbn in H; injection H as <-
      | cbn in H; injection H as <-
      | cbn in H; injection H as <- ]
  end.

(** ** The player bar *)

Lemma slidePosition_cases (s : State) (direction : Q) :
  let p := NewtonianBody.position (playerBar s) in
  let candidate := Vector.add p (Vector.new 0 direction) in
  (0 <= Vector.y candidate <= Constants.CanvasSize - Constants.BarHeight
   /\ slidePosition s direction = candidate)
  \/ (~ (0 <= Vector.y candidate <= Constants.CanvasSize - Constants.BarHeight)
      /\ slidePosition s direction = p).
Proof.
  cbv zeta. unfold slidePosition.
  destruct (Vector.y _ <=? Constants.CanvasSize - Constants.BarHeight) eqn:Hhi;
    [destruct (Vector.y _ >=? Constants.Zero) eqn:Hlo|]; cbn [andb].
  - left. apply Qleb_le in Hhi. apply Qgeb_ge in Hlo. auto.
  - right. apply Qgeb_lt in Hlo. split; [|reflexivity].
    intros [Hc _]. apply (Qlt_not_le _ _ Hlo). exact Hc.
  - right. apply Qleb_gt in Hhi. split; [|reflexivity].
    intros [_ Hc]. apply (Qlt_not_le _ _ Hhi). exact Hc.
Qed.

Lemma slidePosition_x (s : State) (direction : Q) :
  Vector.x (slidePosition s direction) = Vector.x (NewtonianBody.position (playerBar s)).
Proof.
  destruct (slidePosition_cases s direction) as [[_ ->]|[_ ->]]; [|reflexivity].
  cbn. apply Qplus_0_r_eq.
Qed.

Lemma playerBar_in_canvas_initial (rnd0 : Q) : playerBar_in_canvas (initialState rnd0).
Proof. split; vm_compute; discriminate. Qed.

Lemma playerBar_in_canvas_step (rnd0 rnd : Q) (s : State) (eve : Event) (s' : State) :
  playerBar_in_canvas s -> reduceState rnd0 rnd s eve = Ok s' -> playerBar_in_canvas s'.
Proof.
  intros Hs H. step_cases H.
  - unfold playerBar_in_canvas. rewrite HplayerBar. exact Hs.
  - unfold playerBar_in_canvas. cbn.
    destruct (slidePosition_cases s direction) as [[Hin ->]|[_ ->]]; assumption.
  - apply playerBar_in_canvas_initial.
  - exact Hs.
  - exact Hs.
Qed.

(** ** The x coordinates of the bars *)

Lemma trackBall_x (m : State) (v : Vector.t) :
  Vector.x (NewtonianBody.position (trackBall m v))
  = Vector.x (NewtonianBody.position (computerBar m)).
Proof. unfold trackBall. destruct (truthy _); reflexivity. Qed.

(** Every event but [Restart] keeps the x coordinate of both bars. *)
Lemma bars_x_step (rnd0 rnd : Q) (s : State) (eve : Event) (s' : State) :
  (forall b, eve <> Restart b) ->
  reduceState rnd0 rnd s eve = Ok s' ->
  Vector.x (NewtonianBody.position (playerBar s'))
  = Vector.x (NewtonianBody.position (playerBar s))
  /\ Vector.x (NewtonianBody.position (computerBar s'))
     = Vector.x (NewtonianBody.position (computerBar s)).
Proof.
  intros Hne H. step_cases H.
  - rewrite HplayerBar, HcomputerBar, trackBall_x. split; reflexivity.
  - cbn. rewrite slidePosition_x. split; reflexivity.
  - now contradiction (Hne isRestart).
  - split; reflexivity.
  - split; reflexivity.
Qed.

Lemma bars_on_their_columns_step (rnd0 rnd : Q) (s : State) (eve : Event) (s' : State) :
  bars_on_their_columns s -> reduceState rnd0 rnd s eve = Ok s' ->
  bars_on_their_columns s'.
Proof.
  intros [Hp Hc] H.
  destruct eve as [elapsed|direction|isRestart|difficVal|isBreak] eqn:Heve;
    try (destruct (bars_x_step rnd0 rnd s eve s') as [Hp' Hc'];
         [subst eve; intros b; discriminate | subst eve; exact H |];
         split; congruence).
  cbn in H. injection H as <-. split; reflexivity.
Qed.

(** ** The ball *)

Lemma calcBouncedVelocity_x (v : Vector.t) (err : Q) :
  Vector.x (calcBouncedVelocity v err) = - Vector.x v.
Proof. reflexivity. Qed.

Lemma createBall_speed (rnd : Q) :
  exists v, NewtonianBody.velocity (createBall rnd) = Some v
            /\ Qabs (Vector.x v) == 3 /\ Vector.y v = 0.
Proof.
  unfold createBall. cbn. eexists. split; [reflexivity|].
  destruct (rnd >? 0.5); cbn; split; reflexivity.
Qed.

Lemma ball_speed_ok_initial (rnd0 : Q) : ball_speed_ok (initialState rnd0).
Proof.
  destruct (createBall_speed rnd0) as (v & Hv & Hx & _).
  exists v. split; assumption.
Qed.

Lemma ball_speed_ok_step (rnd0 rnd : Q) (s : State) (eve : Event) (s' : State) :
  ball_speed_ok s -> reduceState rnd0 rnd s eve = Ok s' -> ball_speed_ok s'.
Proof.
  intros (v0 & Hv0 & Hx) H. step_cases H; try (exists v0; auto; fail).
  - assert (v = v0) by congruence. subst v0. unfold ball_speed_ok. rewrite Hball.
    destruct (isballp1Endzone _ || isballp2Endzone _).
    + destruct (createBall_speed rnd) as (w & Hw & Hwx & _).
      exists w. split; assumption.
    + eexists. split; [reflexivity|].
      destruct (isballBounceOnLeftBar _ || isballBounceOnRightBar _);
        [|destruct (isballBounceOnBorder _); [|destruct (isBreakout s && _)]].
      * rewrite calcBouncedVelocity_x, Qabs_opp. exact Hx.
      * exact Hx.
      * unfold Vector.flipY, Vector.flipX. cbn [Vector.x]. rewrite Qabs_opp. exact Hx.
      * exact Hx.
  - apply ball_speed_ok_initial.
Qed.

Lemma ball_in_field_initial (rnd0 : Q) : ball_in_field (initialState rnd0).
Proof. split; vm_compute; reflexivity. Qed.

Lemma ball_in_field_step (rnd0 rnd : Q) (s : State) (eve : Event) (s' : State) :
  ball_in_field s -> reduceState rnd0 rnd s eve = Ok s' -> ball_in_field s'.
Proof.
  intros Hs H. step_cases H; try exact Hs.
  - unfold ball_in_field. rewrite Hball.
    destruct (isballp1Endzone _ || isballp2Endzone _) eqn:Hez.
    + split; vm_compute; reflexivity.
    + apply orb_false_iff in Hez as [H1 H2].
      apply Qleb_gt in H1. apply Qgeb_lt in H2. split; assumption.
  - apply ball_in_field_initial.
Qed.

(** ** Totality of the fold *)

Lemma objInteractionHandling_total (rnd : Q) (m : State) (v : Vector.t) :
  NewtonianBody.velocity (ball m) = Some v ->
  exists s', objInteractionHandling rnd m = Ok s'.
Proof.
  intros Hv. unfold objInteractionHandling, NewtonianBody.the_velocity.
  rewrite Hv. cbn [bind].
  destruct (isBreakout m); destruct (isballp1Endzone m || isballp2Endzone m);
    try rewrite (calculateBallBounce_velocity _ v _ _ _ _ Hv);
    cbn [bind]; eexists; reflexivity.
Qed.

Lemma reduceState_total (rnd0 rnd : Q) (s : State) (eve : Event) :
  ball_speed_ok s -> exists s', reduceState rnd0 rnd s eve = Ok s'.
Proof.
  intros (v & Hv & _). destruct eve; cbn; try (eexists; reflexivity).
  rewrite (tick_moved rnd s elapsed v Hv).
  apply (objInteractionHandling_total rnd _ v). exact Hv.
Qed.

Lemma scan_total (rnd0 : Q) (evs : list (Event * Q)) (s : State) :
  ball_speed_ok s -> exists s', scan rnd0 s evs = Ok s'.
Proof.
  revert s. induction evs as [|[eve rnd] evs IH]; intros s Hs; cbn.
  - eexists; reflexivity.
  - destruct (reduceState_total rnd0 rnd s eve Hs) as [s1 H1]. rewrite H1. cbn.
    apply IH. eapply ball_speed_ok_step; eassumption.
Qed.

(** ** The winner *)

Lemma endOfGame_follows_scores_step (rnd0 rnd : Q) (s : State) (eve : Event) (s' : State) :
  endOfGame_follows_scores s -> reduceState rnd0 rnd s eve = Ok s' ->
  endOfGame_follows_scores s'.
Proof.
  intros Hs H. step_cases H; try exact Hs.
  - exact HendOfGame.
  - reflexivity.
Qed.

(** ** The bricks *)

Section Bricks.

Variable f : BrickBody.t -> bool.

Lemma newBricksState_ids (l : list BrickBody.t) :
  map getBrickID (map (fun x => if f x then setBrickOpacity x else x) l) = map getBrickID l.
Proof.
  rewrite map_map. apply map_ext.
  intros b. destruct (f b); reflexivity.
Qed.

Lemma newBricksState_nonneg (l : list BrickBody.t) :
  Forall (fun b => (0 < BrickBody.numberOfHitsLeft b)%Z) l ->
  Forall (fun b => (0 <= BrickBody.numberOfHitsLeft b)%Z) (map (fun x => if f x then setBrickOpacity x else x) l).
Proof.
  intros H. apply Forall_map.
  eapply Forall_impl; [|exact H]. intros b Hb. cbv beta in *.
  destruct (f b); cbn; lia.
Qed.

Lemma newBricksState_no_hit (l : list BrickBody.t) :
  includes_true (map f l) = false -> map (fun x => if f x then setBrickOpacity x else x) l = l.
Proof.
  unfold includes_true.
  induction l as [|b l IH]; cbn; [reflexivity|].
  intros H. apply orb_false_iff in H as [Hb Hl]. rewrite Hb, (IH Hl). reflexivity.
Qed.

Lemma newBricksState_hit (l : list BrickBody.t) (b : BrickBody.t) :
  In b l -> f b = true -> In (setBrickOpacity b) (map (fun x => if f x then setBrickOpacity x else x) l).
Proof.
  intros Hin Hf.
  apply in_map_iff. exists b. rewrite Hf. auto.
Qed.

Lemma includes_true_hit (l : list BrickBody.t) (b : BrickBody.t) :
  In b l -> f b = true -> includes_true (map f l) = true.
Proof.
  intros Hin Hf. unfold includes_true. apply existsb_exists.
  exists true. split; [|reflexivity]. apply in_map_iff. exists b. auto.
Qed.

End Bricks.

Lemma brickToKeep_alive (b : BrickBody.t) :
  brickToKeep b = true <-> (0 < BrickBody.numberOfHitsLeft b)%Z.
Proof. unfold brickToKeep. rewrite Z.gtb_ltb. apply Z.ltb_lt. Qed.

Lemma brickToRemove_zero (b : BrickBody.t) :
  brickToRemove b = true <-> BrickBody.numberOfHitsLeft b = 0%Z.
Proof.
  unfold brickToRemove, truthy. rewrite negb_involutive. apply Z.eqb_eq.
Qed.

Lemma filter_brickToKeep_alive (l : list BrickBody.t) :
  Forall (fun b => (0 < BrickBody.numberOfHitsLeft b)%Z) (filter brickToKeep l).
Proof.
  apply Forall_forall. intros b Hb. apply filter_In in Hb as [_ Hb].
  now apply brickToKeep_alive.
Qed.

Lemma filter_alive (l : list BrickBody.t) :
  Forall (fun b => (0 < BrickBody.numberOfHitsLeft b)%Z) l ->
  filter brickToKeep l = l /\ filter brickToRemove l = [].
Proof.
  induction 1 as [|b l Hb _ [IHk IHr]]; cbn; [split; reflexivity|].
  assert (Hk : brickToKeep b = true) by now apply brickToKeep_alive.
  assert (Hr : brickToRemove b = false).
  { apply not_true_iff_false. rewrite brickToRemove_zero. lia. }
  rewrite Hk, Hr, IHk, IHr. split; reflexivity.
Qed.

(** A brick list without negative counts is split by [brickToKeep] and
    [brickToRemove] into two parts that lose and repeat nothing. *)
Lemma keep_remove_partition (l : list BrickBody.t) :
  Forall (fun b => (0 <= BrickBody.numberOfHitsLeft b)%Z) l ->
  Permutation (map getBrickID (filter brickToKeep l)
               ++ map getBrickID (filter brickToRemove l))
              (map getBrickID l).
Proof.
  induction 1 as [|b l Hb _ IH]; cbn; [constructor|].
  destruct (Z.eq_dec (BrickBody.numberOfHitsLeft b) 0) as [Hz|Hz].
  - assert (Hk : brickToKeep b = false).
    { apply not_true_iff_false. rewrite brickToKeep_alive. lia. }
    assert (Hr : brickToRemove b = true) by now apply brickToRemove_zero.
    rewrite Hk, Hr. cbn. symmetry. apply Permutation_cons_app. symmetry. exact IH.
  - assert (Hk : brickToKeep b = true) by (apply brickToKeep_alive; lia).
    assert (Hr : brickToRemove b = false).
    { apply not_true_iff_false. rewrite brickToRemove_zero. exact Hz. }
    rewrite Hk, Hr. cbn. constructor. exact IH.
Qed.

(** The bricks after a tick in breakout mode, whether or not one was hit. *)
Lemma breakout_bricks_keep (f : BrickBody.t -> bool) (l : list BrickBody.t) :
  Forall (fun b => (0 < BrickBody.numberOfHitsLeft b)%Z) l ->
  (if includes_true (map f l)
   then filter brickToKeep (map (fun x => if f x then setBrickOpacity x else x) l)
   else l)
  = filter brickToKeep (map (fun x => if f x then setBrickOpacity x else x) l).
Proof.
  intros Hl. destruct (includes_true (map f l)) eqn:Hhit; [reflexivity|].
  rewrite (newBricksState_no_hit f l Hhit).
  symmetry. apply (filter_alive l Hl).
Qed.

Lemma NoDup_app_disjoint {A : Type} (l1 l2 : list A) (a : A) :
  NoDup (l1 ++ l2) -> In a l2 -> ~ In a l1.
Proof.
  induction l1 as [|b l1 IH]; cbn; intros Hnd Hin; [tauto|].
  apply NoDup_cons_iff in Hnd as [Hb Hnd].
  intros [->|H1].
  - apply Hb, in_or_app. now right.
  - now apply (IH Hnd Hin).
Qed.

Lemma initialiseBricks_ids_NoDup : NoDup (map getBrickID initialiseBricks).
Proof.
  apply (NoDup_count_occ Z.eq_dec). intros z.
  assert (H : forallb (fun i => (count_occ Z.eq_dec (map getBrickID initialiseBricks) i <=? 1)%nat)
                (map getBrickID initialiseBricks) = true) by (vm_compute; reflexivity).
  destruct (in_dec Z.eq_dec z (map getBrickID initialiseBricks)) as [Hin|Hout].
  - rewrite forallb_forall in H. apply Nat.leb_le, H, Hin.
  - apply (count_occ_not_In Z.eq_dec) in Hout. rewrite Hout. lia.
Qed.

Lemma bricks_initial (rnd0 : Q) :
  bricks_alive (initialState rnd0) /\ bricks_accounted (initialState rnd0).
Proof.
  split.
  - unfold bricks_alive. apply Forall_forall. intros b Hb.
    assert (H : forallb (fun b => (0 <? BrickBody.numberOfHitsLeft b)%Z) initialiseBricks = true)
      by (vm_compute; reflexivity).
    rewrite forallb_forall in H. apply Z.ltb_lt, H, Hb.
  - unfold bricks_accounted. cbn [bricks bricksToRemove initialState].
    rewrite app_nil_r. apply Permutation_refl.
Qed.

Lemma bricks_step (rnd0 rnd : Q) (s : State) (eve : Event) (s' : State) :
  bricks_alive s /\ bricks_accounted s ->
  reduceState rnd0 rnd s eve = Ok s' ->
  bricks_alive s' /\ bricks_accounted s'.
Proof.
  intros [Ha Hp] H. step_cases H; try (split; assumption).
  - unfold bricks_alive, bricks_accounted. rewrite Hbricks, HbricksToRemove.
    destruct (isBreakout s); cbn [andb]; [|split; assumption].
    rewrite (breakout_bricks_keep (isBallBounceOnBrick (moved s elapsed v)) (bricks s) Ha).
    split; [apply filter_brickToKeep_alive|].
    set (new := map _ (bricks s)).
    assert (Hnew : Permutation (map getBrickID (filter brickToKeep new)
                                ++ map getBrickID (filter brickToRemove new))
                               (map getBrickID (bricks s))).
    { rewrite <- (newBricksState_ids (isBallBounceOnBrick (moved s elapsed v)) (bricks s)).
      apply keep_remove_partition, newBricksState_nonneg, Ha. }
    unfold bricks_accounted in Hp. rewrite <- Hp, <- Hnew, <- !app_assoc.
    apply Permutation_app_head, Permutation_app_comm.
  - apply bricks_initial.
Qed.

(** ** The scores *)

Lemma scores_step (rnd0 rnd : Q) (s : State) (eve : Event) (s' : State) :
  (forall b, eve <> Restart b) ->
  reduceState rnd0 rnd s eve = Ok s' ->
  (p1Score s <= p1Score s' <= p1Score s + 1)%Z
  /\ (p2Score s <= p2Score s' <= p2Score s + 1)%Z.
Proof.
  intros Hne H. step_cases H; cbn; try lia.
  - rewrite Hp1, Hp2. unfold incrementScore.
    destruct (isballp2Endzone _), (isballp1Endzone _); lia.
  - now contradiction (Hne isRestart).
Qed.

Lemma scores_scan (rnd0 : Q) (evs : list (Event * Q)) (s s' : State) :
  (forall eve rnd, In (eve, rnd) evs -> forall b, eve <> Restart b) ->
  scan rnd0 s evs = Ok s' ->
  (p1Score s <= p1Score s')%Z /\ (p2Score s <= p2Score s')%Z.
Proof.
  revert s. induction evs as [|[eve rnd] evs IH]; intros s Hne H; cbn in H.
  - injection H as <-. lia.
  - destruct (reduceState rnd0 rnd s eve) as [s1|] eqn:E; cbn in H; [|discriminate].
    destruct (scores_step rnd0 rnd s eve s1) as [? ?];
      [apply (Hne eve rnd); now left | exact E |].
    destruct (IH s1) as [? ?];
      [intros e r Hin; apply (Hne e r); now right | exact H |].
    lia.
Qed.

(** A reduction other than [Restart] adds at most one point in all. *)
Lemma scores_sum_step (rnd0 rnd : Q) (s : State) (eve : Event) (s' : State) :
  (forall b, eve <> Restart b) ->
  reduceState rnd0 rnd s eve = Ok s' ->
  (p1Score s' + p2Score s' <= p1Score s + p2Score s + 1)%Z.
Proof.
  intros Hne H. step_cases H; cbn; try lia.
  - rewrite Hp1, Hp2. unfold incrementScore.
    destruct (isballp2Endzone _) eqn:H2; destruct (isballp1Endzone _) eqn:H1; try lia.
    exfalso. apply Qgeb_ge in H2. apply Qleb_le in H1.
    assert (Hc : Constants.CanvasSize <= Constants.Zero) by (eapply Qle_trans; eassumption).
    vm_compute in Hc. now apply Hc.
  - now contradiction (Hne isRestart).
Qed.

(** ** The subscription *)

Lemma in_progress_scores (s : State) :
  endOfGame_follows_scores s -> scores_in_range s -> endOfGame s = 0%Z ->
  (0 <= p1Score s < Constants.maxScore)%Z /\ (0 <= p2Score s < Constants.maxScore)%Z.
Proof.
  unfold endOfGame_follows_scores, winner, scores_in_range.
  intros Hf [H1 H2] H0. rewrite H0 in Hf.
  destruct (Z.eqb_spec (p1Score s) Constants.maxScore); [discriminate|].
  destruct (Z.eqb_spec (p2Score s) Constants.maxScore); [discriminate|].
  lia.
Qed.

Lemma scores_in_range_step (rnd0 rnd : Q) (s : State) (eve : Event) (s' : State) :
  endOfGame_follows_scores s -> scores_in_range s -> endOfGame s = 0%Z ->
  reduceState rnd0 rnd s eve = Ok s' -> scores_in_range s'.
Proof.
  intros Hf Hr H0 H. destruct (in_progress_scores s Hf Hr H0) as [H1 H2].
  destruct eve as [elapsed|direction|isRestart|difficVal|isBreak] eqn:Heve;
    try (destruct (scores_step rnd0 rnd s eve s') as [? ?];
         [subst eve; intros b; discriminate | subst eve; exact H |];
         unfold scores_in_range; lia).
  cbn in H. injection H as <-. split; vm_compute; split; discriminate.
Qed.

Lemma winner_names_the_winner (s : State) :
  endOfGame_follows_scores s -> endOfGame s <> 0%Z ->
  (endOfGame s = Constants.playerBarNum /\ p1Score s = Constants.maxScore)
  \/ (endOfGame s = Constants.computerBarNum /\ p2Score s = Constants.maxScore).
Proof.
  unfold endOfGame_follows_scores, winner. intros -> Hne.
  destruct (Z.eqb_spec (p1Score s) Constants.maxScore); [now left|].
  destruct (Z.eqb_spec (p2Score s) Constants.maxScore); [now right|].
  contradiction.
Qed.

Lemma subscribe_in_progress (rnd0 : Q) (evs : list (Event * Q)) (s : State) :
  ball_speed_ok s -> endOfGame_follows_scores s -> scores_in_range s ->
  endOfGame s = 0%Z ->
  exists l,
    subscribe rnd0 s evs = Ok l
    /\ (List.length l <= List.length evs)%nat
    /\ Forall (fun s' => endOfGame_follows_scores s' /\ scores_in_range s') l
    /\ Forall (fun s' => endOfGame s' = 0%Z) (removelast l).
Proof.
  revert s. induction evs as [|[eve rnd] evs IH]; intros s Hb Hf Hr H0.
  - exists []. cbn. repeat split; constructor.
  - destruct (reduceState_total rnd0 rnd s eve Hb) as [s1 H1].
    pose proof (ball_speed_ok_step rnd0 rnd s eve s1 Hb H1) as Hb1.
    pose proof (endOfGame_follows_scores_step rnd0 rnd s eve s1 Hf H1) as Hf1.
    pose proof (scores_in_range_step rnd0 rnd s eve s1 Hf Hr H0 H1) as Hr1.
    cbn [subscribe]. rewrite H1. cbn [bind]. unfold truthy.
    destruct (Z.eqb_spec (endOfGame s1) 0) as [Hz|Hnz]; cbn [negb].
    + destruct (IH s1 Hb1 Hf1 Hr1 Hz) as (rest & -> & Hlen & Hall & Hinit).
      cbn [bind]. exists (s1 :: rest). split; [reflexivity|].
      split; [cbn; lia|]. split; [constructor; auto|].
      destruct rest as [|s2 rest]; [constructor|].
      change (removelast (s1 :: s2 :: rest)) with (s1 :: removelast (s2 :: rest)).
      constructor; assumption.
    + exists [s1]. split; [reflexivity|]. split; [cbn; lia|].
      split; [constructor; auto|]. constructor.
Qed.

Lemma subscribe_one_winner (rnd0 : Q) (evs : list (Event * Q)) (s : State) (l : list State) :
  endOfGame_follows_scores s -> scores_in_range s -> endOfGame s = 0%Z ->
  subscribe rnd0 s evs = Ok l ->
  Forall (fun s' => (p1Score s' + p2Score s' < 2 * Constants.maxScore)%Z) l.
Proof.
  revert s l. induction evs as [|[eve rnd] evs IH]; intros s l Hf Hr H0 H; cbn in H.
  - injection H as <-. constructor.
  - destruct (reduceState rnd0 rnd s eve) as [s1|] eqn:E; cbn in H; [|discriminate].
    destruct (in_progress_scores s Hf Hr H0) as [H1 H2].
    assert (Hsum : (p1Score s1 + p2Score s1 < 2 * Constants.maxScore)%Z).
    { destruct eve as [elapsed|direction|isRestart|difficVal|isBreak] eqn:Heve;
        try (pose proof (scores_sum_step rnd0 rnd s eve s1) as Hs;
             subst eve; specialize (Hs ltac:(intros b; discriminate) E); lia).
      cbn in E. injection E as <-. reflexivity. }
    pose proof (endOfGame_follows_scores_step rnd0 rnd s eve s1 Hf E) as Hf1.
    pose proof (scores_in_range_step rnd0 rnd s eve s1 Hf Hr H0 E) as Hr1.
    unfold truthy in H.
    destruct (Z.eqb_spec (endOfGame s1) 0) as [Hz|Hnz]; cbn [negb] in H.
    + destruct (subscribe rnd0 s1 evs) as [rest|] eqn:Erest; cbn in H; [|discriminate].
      injection H as <-. constructor; [exact Hsum|].
      apply (IH s1 rest Hf1 Hr1 Hz Erest).
    + injection H as <-. constructor; [exact Hsum|constructor].
Qed.

Lemma nth_error_removelast {A : Type} (l : list A) (j : nat) (x : A) :
  nth_error l j = Some x -> (S j < List.length l)%nat -> In x (removelast l).
Proof.
  revert j. induction l as [|a l IH]; intros j Hn Hlt; [destruct j; discriminate|].
  destruct l as [|b l]; [cbn in Hlt; lia|].
  change (removelast (a :: b :: l)) with (a :: removelast (b :: l)).
  destruct j as [|j]; cbn in Hn.
  - injection Hn as <-. now left.
  - right. apply (IH j Hn). cbn in *. lia.
Qed.

Lemma In_firstn_nth_error {A : Type} (l : list A) (n : nat) (x : A) :
  In x (firstn n l) -> exists j, (j < n)%nat /\ nth_error l j = Some x.
Proof.
  revert l. induction n as [|n IH]; intros [|a l] H; cbn in H; try contradiction.
  destruct H as [->|H].
  - exists 0%nat. split; [lia|reflexivity].
  - destruct (IH l H) as (j & Hj & Hn). exists (S j). split; [lia|exact Hn].
Qed.

Lemma nth_error_In_firstn {A : Type} (l : list A) (i : nat) (x : A) :
  nth_error l i = Some x -> In x (firstn (S i) l).
Proof.
  revert l. induction i as [|i IH]; intros [|a l] H; cbn in H; try discriminate.
  - injection H as <-. now left.
  - right. apply IH, H.
Qed.

(** ** The ids appended to the removal list *)

Lemma skipn_length_app {A : Type} (l added : list A) :
  skipn (List.length l) (l ++ added) = added.
Proof. induction l as [|a l IH]; [reflexivity|exact IH]. Qed.

Lemma bricksToRemove_step (rnd0 rnd : Q) (s : State) (eve : Event) (s' : State) :
  (forall b, eve <> Restart b) ->
  reduceState rnd0 rnd s eve = Ok s' ->
  bricksToRemove s' = bricksToRemove s ++ appended s eve s'.
Proof.
  intros Hne H.
  assert (Hsame : bricksToRemove s
                  = bricksToRemove s
                    ++ skipn (List.length (bricksToRemove s)) (bricksToRemove s)).
  { rewrite skipn_all, app_nil_r. reflexivity. }
  step_cases H; cbn [appended]; try exact Hsame.
  - rewrite HbricksToRemove. destruct (isBreakout s); [|exact Hsame].
    rewrite skipn_length_app. reflexivity.
  - now contradiction (Hne isRestart).
Qed.

Lemma appended_along_spec (rnd0 : Q) (evs : list (Event * Q)) (s s' : State) :
  (forall eve rnd, In (eve, rnd) evs -> forall b, eve <> Restart b) ->
  scan rnd0 s evs = Ok s' ->
  exists added,
    appended_along rnd0 s evs = Ok added
    /\ bricksToRemove s' = bricksToRemove s ++ added.
Proof.
  revert s. induction evs as [|[eve rnd] evs IH]; intros s Hne H; cbn in H.
  - injection H as <-. exists []. split; [reflexivity|]. now rewrite app_nil_r.
  - destruct (reduceState rnd0 rnd s eve) as [s1|] eqn:E; cbn in H; [|discriminate].
    destruct (IH s1) as (rest & Hrest & Hlist);
      [intros e r Hin; apply (Hne e r); now right | exact H |].
    exists (appended s eve s1 ++ rest). cbn [appended_along]. rewrite E. cbn [bind].
    rewrite Hrest. cbn [bind]. split; [reflexivity|].
    rewrite Hlist, (bricksToRemove_step rnd0 rnd s eve s1), app_assoc;
      [reflexivity | apply (Hne eve rnd); now left | exact E].
Qed.

(** * The claims *)

(** ** C1: the bars and the canvas *)

(** C1, amended.  In every state of the fold the player bar is inside the
    canvas: [0 <= playerBar.position.y <= CanvasSize - BarHeight].  The
    computer bar has no such bound: every tick moves it by exactly
    [computerDifficulty], up or down, with no test on where it ends. *)
Theorem playerBar_stays_in_canvas (rnd0 : Q) (evs : list (Event * Q)) (s : State) :
  run rnd0 evs = Ok s ->
  0 <= Vector.y (NewtonianBody.position (playerBar s))
    <= Constants.CanvasSize - Constants.BarHeight
  /\ forall rnd elapsed s',
       reduceState rnd0 rnd s (Tick elapsed) = Ok s' ->
       let barY := Vector.y (NewtonianBody.position (computerBar s)) in
       let barY' := Vector.y (NewtonianBody.position (computerBar s')) in
       barY' = barY + computerDifficulty s
       \/ barY' = barY - computerDifficulty s.
Proof.
  intros Hrun. split.
  - revert evs s Hrun. apply run_invariant.
    + apply playerBar_in_canvas_initial.
    + apply playerBar_in_canvas_step.
  - intros rnd elapsed s' H.
    destruct (run_invariant rnd0 ball_speed_ok (ball_speed_ok_initial rnd0)
                (ball_speed_ok_step rnd0) evs s Hrun) as (v0 & Hv0 & Hx).
    cbn in H. apply tick_inv in H.
    destruct H as (v & Hv & _ & _ & HcomputerBar & _).
    assert (v0 = v) by congruence. subst v0.
    cbv zeta. rewrite HcomputerBar. unfold trackBall.
    assert (Htruthy : truthy (Math_sign (Vector.x v)) = true).
    { apply Math_sign_truthy. intros H0. rewrite H0 in Hx. vm_compute in Hx.
      discriminate. }
    rewrite Htruthy. cbn. destruct (_ =? -1)%Z; auto.
Qed.

Lemma playerBar_stays_in_canvas_witness :
  0 <= Vector.y (NewtonianBody.position
                   (playerBar (outcome (initialState 0)
                                 (run 0 (presses 40 8 ++ ticks 2 0)))))
    <= Constants.CanvasSize - Constants.BarHeight.
Proof.
  apply (playerBar_stays_in_canvas 0 (presses 40 8 ++ ticks 2 0)).
  vm_compute. reflexivity.
Defined.

(** C1, counterexample.  With the difficulty at 6000 / 20 = 300, the first
    tick takes the computer bar from y = 262.5 to y = -37.5, out of the
    canvas. *)
Lemma computerBar_leaves_canvas :
  exists s,
    run 0 [(SetDifficulty 6000, 0); (Tick 0, 0)] = Ok s
    /\ Vector.y (NewtonianBody.position (computerBar s)) == - (75 # 2)
    /\ ~ (0 <= Vector.y (NewtonianBody.position (computerBar s))
           <= Constants.CanvasSize - Constants.BarHeight).
Proof.
  eexists. split; [reflexivity|]. split; [reflexivity|].
  intros [H _]. vm_compute in H. apply H. reflexivity.
Qed.

(** The same with the difficulty of the specification's own example
    ([SetDifficulty 40]): the player presses the down key twice and returns
    the serve downwards; 202 ticks after the start the computer bar, still
    following the ball, is at y = -1.5. *)
Lemma computerBar_leaves_canvas_in_play :
  observe (fun s => Qred (Vector.y (NewtonianBody.position (computerBar s))))
    (run 0 ((SetDifficulty 40, 0) :: presses 2 8 ++ ticks 202 0))
  = Ok (- (3 # 2)).
Proof. vm_compute. reflexivity. Qed.

(** ** C2: the end of the game *)

(** In every state of the fold [endOfGame] is determined by the scores of
    that state: 1 when [p1Score] is [maxScore], otherwise 2 when [p2Score]
    is [maxScore], otherwise 0. *)
Lemma endOfGame_is_a_function_of_the_scores
    (rnd0 : Q) (evs : list (Event * Q)) (s : State) :
  run rnd0 evs = Ok s ->
  (p1Score s = Constants.maxScore -> endOfGame s = Constants.playerBarNum)
  /\ (p1Score s <> Constants.maxScore -> p2Score s = Constants.maxScore ->
      endOfGame s = Constants.computerBarNum)
  /\ (p1Score s <> Constants.maxScore -> p2Score s <> Constants.maxScore ->
      endOfGame s = 0%Z).
Proof.
  intros Hrun.
  assert (H : endOfGame_follows_scores s).
  { revert evs s Hrun. apply run_invariant.
    - reflexivity.
    - apply endOfGame_follows_scores_step. }
  unfold endOfGame_follows_scores, winner in H. rewrite H.
  destruct (Z.eqb_spec (p1Score s) Constants.maxScore);
    destruct (Z.eqb_spec (p2Score s) Constants.maxScore);
    repeat split; intros; try reflexivity; contradiction.
Qed.

(** C2.  In the sequence of states that the subscribed fold produces from
    the initial state, [endOfGame] is 0 in a state as long as no state up to
    it has a score at [maxScore]; once a state up to it has, the state has
    exactly one score at [maxScore] and [endOfGame] is the number of that
    side (1 for the player, 2 for the computer), and so it is in every later
    state of the sequence; and [endOfGame] is set in at most one state of
    the sequence.  (The view unsubscribes on that state, so it is the last:
    the sequence holds no later state.) *)
Theorem endOfGame_is_set_once_and_for_all
    (rnd0 : Q) (evs : list (Event * Q)) (l : list State) (i : nat) (s : State) :
  sub rnd0 evs = Ok l ->
  nth_error l i = Some s ->
  ((forall s0, In s0 (firstn (S i) l) ->
      p1Score s0 <> Constants.maxScore /\ p2Score s0 <> Constants.maxScore) ->
   endOfGame s = 0%Z)
  /\ ((exists s0, In s0 (firstn (S i) l)
                  /\ (p1Score s0 = Constants.maxScore
                      \/ p2Score s0 = Constants.maxScore)) ->
      ((p1Score s = Constants.maxScore /\ (p2Score s < Constants.maxScore)%Z
        /\ endOfGame s = Constants.playerBarNum)
       \/ (p2Score s = Constants.maxScore /\ (p1Score s < Constants.maxScore)%Z
           /\ endOfGame s = Constants.computerBarNum))
      /\ (forall j s', (i <= j)%nat -> nth_error l j = Some s' ->
             endOfGame s' = endOfGame s))
  /\ (forall j s', nth_error l j = Some s' ->
         endOfGame s <> 0%Z -> endOfGame s' <> 0%Z -> j = i).
Proof.
  intros Hsub Hnth. unfold sub in Hsub.
  assert (Hb0 := ball_speed_ok_initial rnd0).
  assert (Hf0 : endOfGame_follows_scores (initialState rnd0)) by reflexivity.
  assert (Hr0 : scores_in_range (initialState rnd0))
    by (split; vm_compute; split; discriminate).
  assert (Hz0 : endOfGame (initialState rnd0) = 0%Z) by reflexivity.
  destruct (subscribe_in_progress rnd0 evs (initialState rnd0) Hb0 Hf0 Hr0 Hz0)
    as (l' & Hl' & _ & Hall & Hinit).
  assert (l' = l) by congruence. subst l'.
  pose proof (subscribe_one_winner rnd0 evs (initialState rnd0) l Hf0 Hr0 Hz0 Hsub)
    as Hone.
  rewrite Forall_forall in Hall, Hinit, Hone.
  (* a state with [endOfGame] set is the last of the sequence *)
  assert (Hlast : forall j s', nth_error l j = Some s' -> endOfGame s' <> 0%Z ->
                               S j = List.length l).
  { intros j s' Hj Hne.
    assert (Hlt : (j < List.length l)%nat) by (apply nth_error_Some; congruence).
    destruct (Nat.eq_dec (S j) (List.length l)) as [|Hneq]; [assumption|].
    exfalso. apply Hne, Hinit, (nth_error_removelast l j s' Hj). lia. }
  assert (Hi : (i < List.length l)%nat) by (apply nth_error_Some; congruence).
  assert (Hins : In s l) by (eapply nth_error_In; eassumption).
  destruct (Hall s Hins) as [Hfs Hrs].
  split; [|split].
  - intros Hnone.
    destruct (Hnone s (nth_error_In_firstn l i s Hnth)) as [H1 H2].
    unfold endOfGame_follows_scores, winner in Hfs. rewrite Hfs.
    destruct (Z.eqb_spec (p1Score s) Constants.maxScore); [contradiction|].
    destruct (Z.eqb_spec (p2Score s) Constants.maxScore); [contradiction|].
    reflexivity.
  - intros (s0 & Hin0 & Hreached).
    destruct (In_firstn_nth_error l (S i) s0 Hin0) as (j & Hj & Hnj).
    assert (Hin0' : In s0 l) by (eapply nth_error_In; eassumption).
    destruct (Hall s0 Hin0') as [Hf0' _].
    assert (Hset0 : endOfGame s0 <> 0%Z).
    { unfold endOfGame_follows_scores, winner in Hf0'. rewrite Hf0'.
      destruct (Z.eqb_spec (p1Score s0) Constants.maxScore); [discriminate|].
      destruct (Z.eqb_spec (p2Score s0) Constants.maxScore); [discriminate|].
      destruct Hreached; contradiction. }
    pose proof (Hlast j s0 Hnj Hset0) as Hjl.
    assert (j = i) by lia. subst j.
    assert (s0 = s) by congruence. subst s0.
    split.
    + pose proof (Hone s Hins) as Hsum. unfold scores_in_range in Hrs.
      destruct (winner_names_the_winner s Hfs Hset0) as [[He Hp]|[He Hp]];
        [left|right]; (split; [exact Hp|]); (split; [|exact He]);
        rewrite Hp in Hsum; unfold Constants.maxScore in *; lia.
    + intros j s' Hij Hj'.
      assert (Hj'l : (j < List.length l)%nat) by (apply nth_error_Some; congruence).
      assert (j = i) by lia. subst j. congruence.
  - intros j s' Hj Hs Hs'.
    pose proof (Hlast i s Hnth Hs). pose proof (Hlast j s' Hj Hs'). lia.
Qed.

Lemma endOfGame_is_set_once_and_for_all_witness :
  let l := states_of (sub 0 (presses 5 8 ++ ticks 800 0)) in
  let s := nth 704 l (initialState 0) in
  (p2Score s = Constants.maxScore /\ (p1Score s < Constants.maxScore)%Z
   /\ endOfGame s = Constants.computerBarNum)
  /\ (forall j s', (704 <= j)%nat -> nth_error l j = Some s' ->
         endOfGame s' = endOfGame s).
Proof.
  intros l s.
  assert (Hnth : nth_error l 704 = Some s) by (vm_compute; reflexivity).
  destruct (endOfGame_is_set_once_and_for_all 0 (presses 5 8 ++ ticks 800 0) l 704 s)
    as (_ & H & _); [vm_compute; reflexivity | exact Hnth |].
  destruct H as [[(Hp1 & _)|Hwon] Hlater].
  - exists s. split; [apply nth_error_In_firstn, Hnth|].
    right. vm_compute. reflexivity.
  - exfalso. vm_compute in Hp1. discriminate.
  - split; assumption.
Defined.

(** ** C3: the scores *)

(** C3, amended.  Across any sequence of events without a [Restart] neither
    score decreases.  A tick adds exactly 1 to [p1Score] when the ball, once
    advanced, is at [x >= CanvasSize] and 0 otherwise, and exactly 1 to
    [p2Score] when it is at [x <= 0] and 0 otherwise; [Slide],
    [SetDifficulty] and [ToggleBreakout] leave both scores; [Restart] sets
    both to 0. *)
Theorem scores_without_Restart (rnd0 : Q) :
  (forall evs s s',
      (forall eve rnd, In (eve, rnd) evs -> forall b, eve <> Restart b) ->
      scan rnd0 s evs = Ok s' ->
      (p1Score s <= p1Score s')%Z /\ (p2Score s <= p2Score s')%Z)
  /\ (forall rnd s elapsed s',
         reduceState rnd0 rnd s (Tick elapsed) = Ok s' ->
         exists v, NewtonianBody.velocity (ball s) = Some v /\
           let ballX := Vector.x (NewtonianBody.position (ball s)) + Vector.x v in
           (Constants.CanvasSize <= ballX -> p1Score s' = (p1Score s + 1)%Z)
           /\ (ballX < Constants.CanvasSize -> p1Score s' = p1Score s)
           /\ (ballX <= 0 -> p2Score s' = (p2Score s + 1)%Z)
           /\ (0 < ballX -> p2Score s' = p2Score s))
  /\ (forall rnd s eve s',
         (forall elapsed, eve <> Tick elapsed) -> (forall b, eve <> Restart b) ->
         reduceState rnd0 rnd s eve = Ok s' ->
         p1Score s' = p1Score s /\ p2Score s' = p2Score s)
  /\ (forall rnd s b s',
         reduceState rnd0 rnd s (Restart b) = Ok s' ->
         p1Score s' = 0%Z /\ p2Score s' = 0%Z).
Proof.
  split; [apply scores_scan|]. repeat split.
  - intros rnd s elapsed s' H. cbn in H. apply tick_inv in H.
    destruct H as (v & Hv & _ & _ & _ & Hp1 & Hp2 & _).
    exists v. split; [exact Hv|]. cbv zeta.
    rewrite Hp1, Hp2. unfold incrementScore, isballp2Endzone, isballp1Endzone.
    cbn [moved with_time_ball ball NewtonianBody.with_position NewtonianBody.position
         Vector.add Vector.x].
    unfold Constants.Zero.
    repeat split; intros Hx.
    + apply Qgeb_ge in Hx. rewrite Hx. reflexivity.
    + apply Qgeb_lt in Hx. rewrite Hx. lia.
    + apply Qleb_le in Hx. rewrite Hx. reflexivity.
    + apply Qleb_gt in Hx. rewrite Hx. lia.
  - destruct eve; cbn in H1; try (injection H1 as <-; reflexivity).
    + now contradiction (H elapsed).
    + now contradiction (H0 isRestart).
  - destruct eve; cbn in H1; try (injection H1 as <-; reflexivity).
    + now contradiction (H elapsed).
    + now contradiction (H0 isRestart).
  - cbn in H. injection H as <-. reflexivity.
  - cbn in H. injection H as <-. reflexivity.
Qed.

Lemma scores_without_Restart_witness :
  (p1Score (initialState 0)
   <= p1Score (outcome (initialState 0) (run 0 (presses 5 8 ++ ticks 100 0))))%Z
  /\ (p2Score (initialState 0)
      <= p2Score (outcome (initialState 0) (run 0 (presses 5 8 ++ ticks 100 0))))%Z.
Proof.
  apply (proj1 (scores_without_Restart 0) (presses 5 8 ++ ticks 100 0)).
  - intros eve rnd Hin b ->. apply in_app_or in Hin as [Hin|Hin].
    + apply repeat_spec in Hin. discriminate.
    + apply in_map_iff in Hin as (k & Hk & _). discriminate.
  - vm_compute. reflexivity.
Defined.

(** C3, counterexample.  After the computer has won a point [p2Score] is 1;
    a [Restart] takes it back to 0. *)
Lemma Restart_decreases_a_score :
  observe p2Score (run 0 (presses 5 8 ++ ticks 100 0)) = Ok 1%Z
  /\ observe p2Score (run 0 (presses 5 8 ++ ticks 100 0 ++ [(Restart true, 0)]))
     = Ok 0%Z.
Proof. split; vm_compute; reflexivity. Qed.

(** ** C4: the order of the bounce rules *)

(** C4, amended.  On a tick in breakout mode on which a brick overlaps the
    ball and no endzone condition holds, the bounce rules are tried in the
    order paddle, border, brick: with a paddle bounce the velocity is the
    paddle-bounce result; without one, a border contact flips the y component
    only; the brick rule (both components flipped) applies only when there
    is neither a paddle bounce nor a border contact. *)
Theorem border_bounce_before_brick_bounce
    (rnd : Q) (s : State) (elapsed : Z) (v : Vector.t) :
  NewtonianBody.velocity (ball s) = Some v ->
  isBreakout s = true ->
  let m := moved s elapsed v in
  isballp1Endzone m || isballp2Endzone m = false ->
  includes_true (map (isBallBounceOnBrick m) (bricks s)) = true ->
  exists s',
    tick rnd s elapsed = Ok s'
    /\ NewtonianBody.velocity (ball s')
       = Some (if isballBounceOnLeftBar m || isballBounceOnRightBar m
               then calcBouncedVelocity v (paddleAimVerticalError m)
               else if isballBounceOnBorder m then Vector.flipY v
               else Vector.flipY (Vector.flipX v)).
Proof.
  intros Hv Hbreak m Hez Hhit. subst m.
  destruct (objInteractionHandling_total rnd (moved s elapsed v) v
              (moved_velocity s elapsed v Hv)) as [s' Hs'].
  rewrite <- (tick_moved rnd s elapsed v Hv) in Hs'.
  exists s'. split; [exact Hs'|].
  apply tick_inv in Hs'.
  destruct Hs' as (v' & Hv' & _ & _ & _ & _ & _ & _ & _ & _ & _ & Hball & _).
  assert (v' = v) by congruence. subst v'.
  rewrite Hball, Hez, Hbreak, Hhit. cbn [andb].
  destruct (isballBounceOnLeftBar _ || isballBounceOnRightBar _);
    [|destruct (isballBounceOnBorder _)]; reflexivity.
Qed.

Lemma border_bounce_before_brick_bounce_witness :
  exists s',
    tick 0 ball_into_brick_on_border 1 = Ok s'
    /\ NewtonianBody.velocity (ball s') = Some (Vector.new 3 (- -1)).
Proof.
  apply (border_bounce_before_brick_bounce 0 ball_into_brick_on_border 1
           (Vector.new 3 (-1))); reflexivity.
Defined.

(** C4, counterexample.  The ball, moving with velocity (3, -1), arrives at
    (320, 0): on the top border and inside the first brick, away from both
    bars and both endzones.  The tick returns it with velocity (3, 1), the
    border bounce, and not with (-3, 1), the brick bounce. *)
Lemma brick_bounce_loses_to_border_bounce :
  let s := ball_into_brick_on_border in
  let v := Vector.new 3 (-1) in
  let m := moved s 1 v in
  NewtonianBody.velocity (ball s) = Some v
  /\ isBreakout s = true
  /\ includes_true (map (isBallBounceOnBrick m) (bricks s)) = true
  /\ isballBounceOnBorder m = true
  /\ isballBounceOnLeftBar m || isballBounceOnRightBar m = false
  /\ isballp1Endzone m || isballp2Endzone m = false
  /\ observe (fun s' => NewtonianBody.velocity (ball s')) (tick 0 s 1)
     = Ok (Some (Vector.flipY v))
  /\ ~ Vector.x (Vector.flipY v) == Vector.x (Vector.flipY (Vector.flipX v)).
Proof.
  cbv zeta. repeat split; try (vm_compute; reflexivity).
  vm_compute. discriminate.
Qed.

(** ** C5: bricks that run out of hits *)

(** C5, amended.  After a tick in breakout mode, from any state of the
    fold, every brick in [bricks] has a positive [numberOfHitsLeft]; a brick
    whose count drops to zero on that tick (it had one hit left and the ball
    overlaps it) is no longer in [bricks], and its id is appended to
    [bricksToRemove] on that tick, once, the list holding it exactly once;
    and over any continuation of the events without a [Restart] the id is
    not appended again, stays in the list exactly once, and the brick does
    not come back.  ([Restart] lays the grid anew and empties the list.) *)
Theorem spent_bricks_are_removed_once
    (rnd0 : Q) (evs : list (Event * Q)) (s : State)
    (rnd : Q) (elapsed : Z) (s' : State) :
  run rnd0 evs = Ok s ->
  isBreakout s = true ->
  reduceState rnd0 rnd s (Tick elapsed) = Ok s' ->
  (forall b, In b (bricks s') -> (0 < BrickBody.numberOfHitsLeft b)%Z)
  /\ NoDup (bricksToRemove s')
  /\ (forall b v,
         In b (bricks s) ->
         NewtonianBody.velocity (ball s) = Some v ->
         isBallBounceOnBrick (moved s elapsed v) b = true ->
         BrickBody.numberOfHitsLeft b = 1%Z ->
         ~ In (BrickBody.id b) (map BrickBody.id (bricks s'))
         /\ count_occ Z.eq_dec (bricksToRemove s') (BrickBody.id b) = 1%nat
         /\ count_occ Z.eq_dec (appended s (Tick elapsed) s') (BrickBody.id b) = 1%nat
         /\ (forall evs2 s'' added,
                (forall eve r, In (eve, r) evs2 -> forall b0, eve <> Restart b0) ->
                scan rnd0 s' evs2 = Ok s'' ->
                appended_along rnd0 s' evs2 = Ok added ->
                ~ In (BrickBody.id b) added
                /\ count_occ Z.eq_dec (bricksToRemove s'') (BrickBody.id b) = 1%nat
                /\ ~ In (BrickBody.id b) (map BrickBody.id (bricks s'')))).
Proof.
  intros Hrun Hbreak Hstep.
  assert (Hs : bricks_alive s /\ bricks_accounted s).
  { apply (run_invariant rnd0 (fun s => bricks_alive s /\ bricks_accounted s)
             (bricks_initial rnd0) (bricks_step rnd0) evs s Hrun). }
  pose proof (bricks_step rnd0 rnd s (Tick elapsed) s' Hs Hstep) as Hs'.
  destruct Hs' as [Ha' Hp'].
  assert (Hnd : NoDup (map getBrickID (bricks s') ++ bricksToRemove s')).
  { apply (Permutation_NoDup (Permutation_sym Hp')), initialiseBricks_ids_NoDup. }
  split; [apply Forall_forall, Ha'|].
  split; [apply (NoDup_app_remove_l _ _ Hnd)|].
  intros b v Hin Hv Hover Hone.
  assert (Happ : In (BrickBody.id b) (appended s (Tick elapsed) s')).
  { pose proof (bricksToRemove_step rnd0 rnd s (Tick elapsed) s'
                  ltac:(intros b0; discriminate) Hstep) as Hlist.
    pose proof Hstep as Hstep'. cbn in Hstep'. apply tick_inv in Hstep'.
    destruct Hstep' as (v' & Hv' & _ & _ & _ & _ & _ & _ & _ & _ & _ & _ & _ & Htr).
    assert (v' = v) by congruence. subst v'.
    rewrite Hbreak, Hlist in Htr. apply app_inv_head in Htr. rewrite Htr.
    change (BrickBody.id b) with (getBrickID (setBrickOpacity b)).
    apply in_map, filter_In. split.
    - apply (newBricksState_hit _ _ _ Hin Hover).
    - apply brickToRemove_zero. cbn. lia. }
  pose proof (bricksToRemove_step rnd0 rnd s (Tick elapsed) s'
                ltac:(intros b0; discriminate) Hstep) as Hlist.
  assert (Hlisted : In (BrickBody.id b) (bricksToRemove s')).
  { rewrite Hlist. apply in_or_app. now right. }
  split; [apply (NoDup_app_disjoint _ _ _ Hnd Hlisted)|].
  split; [apply NoDup_count_occ'; [apply (NoDup_app_remove_l _ _ Hnd) | exact Hlisted]|].
  split.
  { apply NoDup_count_occ'; [|exact Happ].
    apply (NoDup_app_remove_l (bricksToRemove s)). rewrite <- Hlist.
    apply (NoDup_app_remove_l _ _ Hnd). }
  intros evs2 s'' added Hfree Hscan Hadded.
  assert (Hs'' : bricks_alive s'' /\ bricks_accounted s'').
  { apply (scan_invariant rnd0 (fun s => bricks_alive s /\ bricks_accounted s)
             (bricks_step rnd0) evs2 s' s'' (conj Ha' Hp') Hscan). }
  destruct Hs'' as [_ Hp''].
  assert (Hnd'' : NoDup (map getBrickID (bricks s'') ++ bricksToRemove s'')).
  { apply (Permutation_NoDup (Permutation_sym Hp'')), initialiseBricks_ids_NoDup. }
  destruct (appended_along_spec rnd0 evs2 s' s'' Hfree Hscan) as (added' & Ha2 & Hlist2).
  assert (added' = added) by congruence. subst added'.
  assert (Hlisted'' : In (BrickBody.id b) (bricksToRemove s'')).
  { rewrite Hlist2. apply in_or_app. now left. }
  split; [|split].
  - apply (NoDup_app_remove_l _ _) in Hnd''. rewrite Hlist2 in Hnd''.
    intros Hagain. apply (NoDup_app_disjoint _ _ _ Hnd'' Hagain Hlisted).
  - apply NoDup_count_occ'; [apply (NoDup_app_remove_l _ _ Hnd'') | exact Hlisted''].
  - apply (NoDup_app_disjoint _ _ _ Hnd'' Hlisted'').
Qed.

Lemma spent_bricks_are_removed_once_witness :
  let evs := ticks 2 0 ++ [(ToggleBreakout true, 0)] ++ ticks 3 0 in
  let s := outcome (initialState 0) (run 0 evs) in
  let s' := outcome (initialState 0) (reduceState 0 0 s (Tick 5)) in
  (forall b, In b (bricks s') -> (0 < BrickBody.numberOfHitsLeft b)%Z)
  /\ NoDup (bricksToRemove s')
  /\ ~ In 8%Z (map BrickBody.id (bricks s'))
  /\ count_occ Z.eq_dec (bricksToRemove s') 8%Z = 1%nat
  /\ count_occ Z.eq_dec (appended s (Tick 5) s') 8%Z = 1%nat.
Proof.
  intros evs s s'.
  destruct (spent_bricks_are_removed_once 0 evs s 0 5 s') as (H1 & H2 & H3);
    [vm_compute; reflexivity | reflexivity | vm_compute; reflexivity |].
  split; [exact H1|]. split; [exact H2|].
  destruct (H3 (nth 7 (bricks s) (BrickBody.make 0 Vector.Zero 0 0 0 0))
               (Vector.new 3 0)) as (Ha & Hb & Hc & _).
  - vm_compute. do 7 right. left. reflexivity.
  - reflexivity.
  - reflexivity.
  - reflexivity.
  - split; [exact Ha|]. split; [exact Hb|exact Hc].
Defined.

(** C5, counterexample.  In the short game brick 8 is worn out and its id
    appended to [bricksToRemove]; a [Restart] empties the list and lays the
    grid anew; the same game played again appends the id a second time.
    Along the fifteen events the id 8 is appended twice. *)
Lemma Restart_lets_an_id_be_appended_again :
  observe bricksToRemove (run 0 brick_game) = Ok [8%Z]
  /\ observe bricksToRemove (run 0 (brick_game ++ [(Restart true, 0)])) = Ok []
  /\ observe bricksToRemove
       (run 0 (brick_game ++ [(Restart true, 0)] ++ brick_game)) = Ok [8%Z]
  /\ observe (fun ids => count_occ Z.eq_dec ids 8%Z)
       (appended_along 0 (initialState 0)
          (brick_game ++ [(Restart true, 0)] ++ brick_game))
     = Ok 2%nat.
Proof. repeat split; vm_compute; reflexivity. Qed.

(** ** C6: Restart *)

(** C6.  From every state, [Restart] yields the initial state itself: scores
    0 and 0, [endOfGame] 0, the difficulty 25 / 20, the breakout mode off,
    the full grid of fifteen bricks with four hits each, nothing to remove,
    and the bars and the ball as they were created. *)
Theorem Restart_yields_initialState (rnd0 rnd : Q) (s : State) (isRestart : bool) :
  reduceState rnd0 rnd s (Restart isRestart) = Ok (initialState rnd0)
  /\ p1Score (initialState rnd0) = 0%Z
  /\ p2Score (initialState rnd0) = 0%Z
  /\ endOfGame (initialState rnd0) = 0%Z
  /\ computerDifficulty (initialState rnd0) = 25 / 20
  /\ isBreakout (initialState rnd0) = false
  /\ bricks (initialState rnd0) = initialiseBricks
  /\ List.length initialiseBricks = 15%nat
  /\ Forall (fun b => BrickBody.numberOfHitsLeft b = 4%Z /\ BrickBody.opacity b = 1)
       initialiseBricks
  /\ bricksToRemove (initialState rnd0) = []
  /\ playerBar (initialState rnd0) = createBar Constants.playerBarNum
  /\ computerBar (initialState rnd0) = createBar Constants.computerBarNum
  /\ ball (initialState rnd0) = createBall rnd0.
Proof.
  repeat split; try reflexivity.
  apply Forall_forall. intros b Hb. vm_compute in Hb.
  repeat (destruct Hb as [<-|Hb]; [split; reflexivity|]). contradiction.
Qed.

(** ** C7: Slide *)

(** C7.  [Slide direction] replaces the position of the player bar by
    [position.add((0, direction))] when the y of that candidate lies in
    [[0, CanvasSize - BarHeight]]: the new state has the candidate as the
    position of its player bar and every other field as before.  Otherwise
    it returns the state as it was (the move is rejected, not cut down to
    the bound).  In particular a bar at y = 0 stays where it is under
    [Slide (-8)]. *)
Theorem Slide_moves_or_rejects (rnd0 rnd : Q) (s : State) :
  (forall direction,
      let candidate :=
        Vector.add (NewtonianBody.position (playerBar s)) (Vector.new 0 direction) in
      (0 <= Vector.y candidate <= Constants.CanvasSize - Constants.BarHeight ->
       reduceState rnd0 rnd s (Slide direction)
       = Ok (with_playerBar s (NewtonianBody.with_position (playerBar s) candidate))
       /\ exists s',
            reduceState rnd0 rnd s (Slide direction) = Ok s'
            /\ NewtonianBody.position (playerBar s') = candidate
            /\ Vector.x (NewtonianBody.position (playerBar s'))
               = Vector.x (NewtonianBody.position (playerBar s)) + 0
            /\ Vector.y (NewtonianBody.position (playerBar s'))
               = Vector.y (NewtonianBody.position (playerBar s)) + direction
            /\ NewtonianBody.acceleration (playerBar s')
               = NewtonianBody.acceleration (playerBar s)
            /\ NewtonianBody.velocity (playerBar s')
               = NewtonianBody.velocity (playerBar s)
            /\ NewtonianBody.size (playerBar s') = NewtonianBody.size (playerBar s)
            /\ time s' = time s
            /\ computerBar s' = computerBar s
            /\ ball s' = ball s
            /\ p1Score s' = p1Score s
            /\ p2Score s' = p2Score s
            /\ endOfGame s' = endOfGame s
            /\ computerDifficulty s' = computerDifficulty s
            /\ isBreakout s' = isBreakout s
            /\ breakoutAddedEffects s' = breakoutAddedEffects s
            /\ bricks s' = bricks s
            /\ bricksToRemove s' = bricksToRemove s)
      /\ (~ (0 <= Vector.y candidate <= Constants.CanvasSize - Constants.BarHeight) ->
          reduceState rnd0 rnd s (Slide direction) = Ok s))
  /\ (Vector.y (NewtonianBody.position (playerBar s)) == 0 ->
      reduceState rnd0 rnd s (Slide (-8)) = Ok s).
Proof.
  assert (Hcases : forall direction,
      let candidate :=
        Vector.add (NewtonianBody.position (playerBar s)) (Vector.new 0 direction) in
      (0 <= Vector.y candidate <= Constants.CanvasSize - Constants.BarHeight ->
       reduceState rnd0 rnd s (Slide direction)
       = Ok (with_playerBar s (NewtonianBody.with_position (playerBar s) candidate)))
      /\ (~ (0 <= Vector.y candidate <= Constants.CanvasSize - Constants.BarHeight) ->
          reduceState rnd0 rnd s (Slide direction) = Ok s)).
  { intros direction candidate. cbn [reduceState].
    destruct (slidePosition_cases s direction) as [[Hin ->]|[Hout ->]].
    - split; [reflexivity|]. intros Hn. contradiction.
    - split; [intros Hy; contradiction|]. intros _.
      now rewrite with_position_same, with_playerBar_same. }
  split.
  - intros direction candidate. destruct (Hcases direction) as [Hacc Hrej].
    split; [|exact Hrej].
    intros Hin. split; [exact (Hacc Hin)|].
    eexists. split; [exact (Hacc Hin)|].
    repeat split.
  - intros Hy. apply (Hcases (-8)). cbn [Vector.add Vector.y].
    intros [Hlo _]. rewrite Hy in Hlo. vm_compute in Hlo. now apply Hlo.
Qed.

Lemma Slide_moves_or_rejects_witness :
  (exists s',
      reduceState 0 0 (initialState 0) (Slide 8) = Ok s'
      /\ Vector.y (NewtonianBody.position (playerBar s')) == 541 # 2
      /\ ball s' = ball (initialState 0))
  /\ reduceState 0 0 (initialState 0) (Slide 300) = Ok (initialState 0).
Proof.
  split.
  - destruct (proj1 (proj1 (Slide_moves_or_rejects 0 0 (initialState 0)) 8))
      as (_ & s' & Hs' & _ & _ & Hy & _ & _ & _ & _ & _ & Hball & _).
    + split; vm_compute; discriminate.
    + exists s'. split; [exact Hs'|]. split; [rewrite Hy; reflexivity|exact Hball].
  - apply (proj2 (proj1 (Slide_moves_or_rejects 0 0 (initialState 0)) 300)).
    intros [_ H]. vm_compute in H. now apply H.
Defined.

(** ** C8: the endzones *)

(** C8.  On every tick the ball is first advanced by its velocity.  Then
    [p2Score] grows by exactly 1 if the ball is at [x <= 0] and is unchanged
    otherwise, and [p1Score] grows by exactly 1 if the ball is at
    [x >= CanvasSize] and is unchanged otherwise, each test on its own.  If
    either holds the ball of the new state is a ball fresh from [createBall]:
    at the centre of the canvas, with horizontal speed 3 to the left or to
    the right and no vertical speed, whatever the bounce tests say. *)
Theorem endzone_scores_and_serves (rnd : Q) (s : State) (elapsed : Z) (s' : State) :
  tick rnd s elapsed = Ok s' ->
  exists v, NewtonianBody.velocity (ball s) = Some v /\
    let ballPos := Vector.add (NewtonianBody.position (ball s)) v in
    (Vector.x ballPos <= 0 -> p2Score s' = (p2Score s + 1)%Z)
    /\ (~ Vector.x ballPos <= 0 -> p2Score s' = p2Score s)
    /\ (Constants.CanvasSize <= Vector.x ballPos -> p1Score s' = (p1Score s + 1)%Z)
    /\ (~ Constants.CanvasSize <= Vector.x ballPos -> p1Score s' = p1Score s)
    /\ (Vector.x ballPos <= 0 \/ Constants.CanvasSize <= Vector.x ballPos ->
        ball s' = createBall rnd)
    /\ (~ (Vector.x ballPos <= 0 \/ Constants.CanvasSize <= Vector.x ballPos) ->
        NewtonianBody.position (ball s') = ballPos)
    /\ NewtonianBody.position (createBall rnd)
       = Vector.new (Constants.CanvasSize / 2) (Constants.CanvasSize / 2)
    /\ exists w, NewtonianBody.velocity (createBall rnd) = Some w
                 /\ Qabs (Vector.x w) == 3 /\ Vector.y w = 0.
Proof.
  intros H. apply tick_inv in H.
  destruct H as (v & Hv & _ & _ & _ & Hp1 & Hp2 & _ & _ & _ & _ & Hball & _).
  exists v. split; [exact Hv|]. cbv zeta.
  rewrite Hp1, Hp2, Hball.
  unfold incrementScore, isballp2Endzone, isballp1Endzone, Constants.Zero.
  cbn [moved with_time_ball ball NewtonianBody.with_position NewtonianBody.position].
  set (ballX := Vector.x (Vector.add (NewtonianBody.position (ball s)) v)).
  destruct (ballX <=? 0) eqn:H1; destruct (ballX >=? Constants.CanvasSize) eqn:H2;
    try apply Qleb_le in H1; try apply Qleb_gt in H1;
    try apply Qgeb_ge in H2; try apply Qgeb_lt in H2;
    cbn [orb];
    (repeat split; [ .. | apply createBall_speed ]; intros Hx; try reflexivity;
     try lia; try contradiction;
     try (exfalso; apply (Qlt_not_le _ _ H1); exact Hx);
     try (exfalso; apply (Qlt_not_le _ _ H2); exact Hx);
     try (exfalso; apply Hx; auto; fail);
     try (destruct Hx as [Hx|Hx]; exfalso;
          [apply (Qlt_not_le _ _ H1) | apply (Qlt_not_le _ _ H2)]; exact Hx)).
Qed.

Lemma endzone_scores_and_serves_witness :
  let s := outcome (initialState 0) (run 0 (presses 5 8 ++ ticks 99 0)) in
  let s' := outcome (initialState 0) (tick 1 s 99) in
  p2Score s' = (p2Score s + 1)%Z /\ ball s' = createBall 1.
Proof.
  intros s s'.
  destruct (endzone_scores_and_serves 1 s 99 s') as (v & Hv & H);
    [vm_compute; reflexivity|].
  assert (v = Vector.new (-3) 0) by (vm_compute in Hv; congruence). subst v.
  destruct H as (Hp2 & _ & _ & _ & Hball & _).
  split; [apply Hp2 | apply Hball; left]; vm_compute; discriminate.
Defined.

(** ** C9: the horizontal speed of the ball *)

(** C9.  In every state of the fold the ball has a velocity whose x
    component has magnitude 3, hence is not zero: [createBall] serves with
    3 or -3, and the paddle bounce, the border bounce and the brick bounce
    keep the magnitude of the x component (the fourth rule keeps the
    velocity). *)
Theorem ball_always_moves_horizontally
    (rnd0 : Q) (evs : list (Event * Q)) (s : State) :
  run rnd0 evs = Ok s ->
  (exists v, NewtonianBody.velocity (ball s) = Some v
             /\ Qabs (Vector.x v) == 3 /\ ~ Vector.x v == 0)
  /\ (forall rnd, exists w, NewtonianBody.velocity (createBall rnd) = Some w
                            /\ Qabs (Vector.x w) == 3)
  /\ (forall v err, Qabs (Vector.x (calcBouncedVelocity v err)) == Qabs (Vector.x v))
  /\ (forall v, Qabs (Vector.x (Vector.flipY v)) == Qabs (Vector.x v))
  /\ (forall v, Qabs (Vector.x (Vector.flipY (Vector.flipX v))) == Qabs (Vector.x v)).
Proof.
  intros Hrun. split; [|split; [|split; [|split]]].
  - destruct (run_invariant rnd0 ball_speed_ok (ball_speed_ok_initial rnd0)
                (ball_speed_ok_step rnd0) evs s Hrun) as (v & Hv & Hx).
    exists v. repeat split; try assumption.
    intros H0. rewrite H0 in Hx. vm_compute in Hx. discriminate.
  - intros rnd. destruct (createBall_speed rnd) as (w & Hw & Hx & _). eauto.
  - intros v err. rewrite calcBouncedVelocity_x. apply Qabs_opp.
  - intros v. reflexivity.
  - intros v. unfold Vector.flipY, Vector.flipX. cbn [Vector.x]. apply Qabs_opp.
Qed.

Lemma ball_always_moves_horizontally_witness :
  let s := outcome (initialState 0) (run 0 (presses 2 8 ++ ticks 80 0)) in
  exists v,
    NewtonianBody.velocity (ball s) = Some v
    /\ Qabs (Vector.x v) == 3 /\ ~ Vector.x v == 0.
Proof.
  intros s.
  destruct (ball_always_moves_horizontally 0 (presses 2 8 ++ ticks 80 0) s) as [H _];
    [vm_compute; reflexivity|].
  exact H.
Defined.

(** ** C10: the columns of the bars *)

(** C10.  In every state of the fold the player bar is at
    [x = CanvasSize / 8] and the computer bar at [x = 7 * CanvasSize / 8],
    and every event leaves both x coordinates as they are: [Slide] adds a
    vertical offset only, and the tracking of the ball alters y only. *)
Theorem bars_keep_their_columns (rnd0 : Q) (evs : list (Event * Q)) (s : State) :
  run rnd0 evs = Ok s ->
  Vector.x (NewtonianBody.position (playerBar s)) == Constants.CanvasSize / 8
  /\ Vector.x (NewtonianBody.position (computerBar s)) == 7 * Constants.CanvasSize / 8
  /\ forall rnd eve s',
       reduceState rnd0 rnd s eve = Ok s' ->
       Vector.x (NewtonianBody.position (playerBar s'))
       == Vector.x (NewtonianBody.position (playerBar s))
       /\ Vector.x (NewtonianBody.position (computerBar s'))
          == Vector.x (NewtonianBody.position (computerBar s)).
Proof.
  intros Hrun.
  assert (Hs : bars_on_their_columns s).
  { apply (run_invariant rnd0 bars_on_their_columns) with (evs := evs).
    - split; reflexivity.
    - apply bars_on_their_columns_step.
    - exact Hrun. }
  destruct Hs as [Hp Hc].
  split; [rewrite Hp; reflexivity|]. split; [rewrite Hc; reflexivity|].
  intros rnd eve s' H.
  destruct (bars_on_their_columns_step rnd0 rnd s eve s' (conj Hp Hc) H) as [Hp' Hc'].
  rewrite Hp, Hc, Hp', Hc'. split; reflexivity.
Qed.

Lemma bars_keep_their_columns_witness :
  let s := outcome (initialState 0) (run 0 (presses 3 (-8) ++ ticks 10 0)) in
  Vector.x (NewtonianBody.position (playerBar s)) == Constants.CanvasSize / 8
  /\ Vector.x (NewtonianBody.position (computerBar s)) == 7 * Constants.CanvasSize / 8.
Proof.
  intros s.
  destruct (bars_keep_their_columns 0 (presses 3 (-8) ++ ticks 10 0) s) as (H1 & H2 & _);
    [vm_compute; reflexivity|].
  split; assumption.
Defined.

(** * Further properties of the reducer *)

(** ** The fold never throws *)

(** X1.  Whatever the events and the draws, the fold from the initial state
    produces a state: the ball always has a velocity, so no tick raises the
    [TypeError] that moving a body without velocity (such as a bar) raises. *)
Theorem run_never_throws (rnd0 : Q) (evs : list (Event * Q)) :
  exists s, run rnd0 evs = Ok s.
Proof. apply scan_total, ball_speed_ok_initial. Qed.

(** ** The place of the ball *)

(** X3.  In every state of the fold the ball is strictly between the two
    endzones, [0 < ball.position.x < CanvasSize]: a ball that reaches an
    endzone is replaced by a new one at the centre within the same tick. *)
Theorem ball_stays_between_endzones (rnd0 : Q) (evs : list (Event * Q)) (s : State) :
  run rnd0 evs = Ok s ->
  0 < Vector.x (NewtonianBody.position (ball s)) < Constants.CanvasSize.
Proof.
  intros Hrun.
  apply (run_invariant rnd0 ball_in_field (ball_in_field_initial rnd0)
           (ball_in_field_step rnd0) evs s Hrun).
Qed.

Lemma ball_stays_between_endzones_witness :
  let s := outcome (initialState 0) (run 0 (presses 5 8 ++ ticks 100 0)) in
  0 < Vector.x (NewtonianBody.position (ball s)) < Constants.CanvasSize.
Proof.
  intros s. apply (ball_stays_between_endzones 0 (presses 5 8 ++ ticks 100 0) s).
  vm_compute. reflexivity.
Defined.

(** X4.  A tick never scores for both sides: the two endzone tests are made
    on the same x coordinate and cannot both hold, so the two scores grow by
    at most one point together. *)
Theorem one_point_per_tick (rnd : Q) (s : State) (elapsed : Z) (s' : State) :
  tick rnd s elapsed = Ok s' ->
  (p1Score s' = p1Score s /\ p2Score s' = p2Score s)
  \/ (p1Score s' = (p1Score s + 1)%Z /\ p2Score s' = p2Score s)
  \/ (p1Score s' = p1Score s /\ p2Score s' = (p2Score s + 1)%Z).
Proof.
  intros H. apply tick_inv in H.
  destruct H as (v & _ & _ & _ & _ & Hp1 & Hp2 & _).
  rewrite Hp1, Hp2. unfold incrementScore.
  destruct (isballp2Endzone _) eqn:H2; destruct (isballp1Endzone _) eqn:H1;
    auto using Z.add_0_r.
  exfalso. apply Qgeb_ge in H2. apply Qleb_le in H1.
  assert (Hc : Constants.CanvasSize <= Constants.Zero) by (eapply Qle_trans; eassumption).
  vm_compute in Hc. now apply Hc.
Qed.

Lemma one_point_per_tick_witness :
  let s := outcome (initialState 0) (run 0 (presses 5 8 ++ ticks 99 0)) in
  let s' := outcome s (tick 0 s 99) in
  (p1Score s' = p1Score s /\ p2Score s' = p2Score s)
  \/ (p1Score s' = (p1Score s + 1)%Z /\ p2Score s' = p2Score s)
  \/ (p1Score s' = p1Score s /\ p2Score s' = (p2Score s + 1)%Z).
Proof.
  intros s s'. apply (one_point_per_tick 0 s 99 s'). vm_compute. reflexivity.
Defined.

(** ** The bricks of the breakout mode *)

(** X5.  In every state of the fold the ids of [bricks] followed by
    [bricksToRemove] are the ids of the grid, each once: a brick is either
    in play or reported for removal, never both and never lost. *)
Theorem bricks_are_in_play_or_removed (rnd0 : Q) (evs : list (Event * Q)) (s : State) :
  run rnd0 evs = Ok s ->
  Permutation (map BrickBody.id (bricks s) ++ bricksToRemove s)
              (map Z.of_nat (seq 1 15))
  /\ NoDup (map BrickBody.id (bricks s) ++ bricksToRemove s).
Proof.
  intros Hrun.
  destruct (run_invariant rnd0 (fun s => bricks_alive s /\ bricks_accounted s)
              (bricks_initial rnd0) (bricks_step rnd0) evs s Hrun) as [_ Hp].
  unfold bricks_accounted in Hp. split.
  - exact Hp.
  - apply (Permutation_NoDup (Permutation_sym Hp)), initialiseBricks_ids_NoDup.
Qed.

Lemma bricks_are_in_play_or_removed_witness :
  let s := outcome (initialState 0)
             (run 0 (ticks 2 0 ++ [(ToggleBreakout true, 0)] ++ ticks 4 0)) in
  Permutation (map BrickBody.id (bricks s) ++ bricksToRemove s)
              (map Z.of_nat (seq 1 15))
  /\ NoDup (map BrickBody.id (bricks s) ++ bricksToRemove s).
Proof.
  intros s.
  apply (bricks_are_in_play_or_removed 0
           (ticks 2 0 ++ [(ToggleBreakout true, 0)] ++ ticks 4 0) s).
  vm_compute. reflexivity.
Defined.

Lemma brick_worn_initial : Forall brick_worn initialiseBricks.
Proof.
  apply Forall_forall. intros b Hb. split; [|split].
  - exists b. auto.
  - assert (H : forallb (fun b => (BrickBody.numberOfHitsLeft b =? 4)%Z) initialiseBricks
                = true) by reflexivity.
    rewrite forallb_forall in H. apply H, Z.eqb_eq in Hb. lia.
  - assert (H : forallb (fun b => Qeq_bool (BrickBody.opacity b)
                                    (inject_Z (BrickBody.numberOfHitsLeft b)
                                     * Constants.opacityReduction)) initialiseBricks
                = true) by reflexivity.
    rewrite forallb_forall in H. apply Qeq_bool_iff, H, Hb.
Qed.

Lemma brick_worn_hit (b : BrickBody.t) :
  brick_worn b -> (0 < BrickBody.numberOfHitsLeft (setBrickOpacity b))%Z ->
  brick_worn (setBrickOpacity b).
Proof.
  intros (Hgrid & Hhits & Hop) Hpos. cbn in Hpos. split; [|split].
  - exact Hgrid.
  - cbn. lia.
  - cbn. rewrite Hop. unfold Z.sub. rewrite inject_Z_plus, inject_Z_opp.
    unfold Constants.opacityReduction. change (inject_Z 1) with 1. ring.
Qed.

Lemma brick_worn_step (rnd0 rnd : Q) (s : State) (eve : Event) (s' : State) :
  Forall brick_worn (bricks s) -> reduceState rnd0 rnd s eve = Ok s' ->
  Forall brick_worn (bricks s').
Proof.
  intros Hs H. step_cases H; try exact Hs.
  - rewrite Hbricks. destruct (isBreakout s && _); [|exact Hs].
    apply Forall_forall. intros b' Hb'.
    apply filter_In in Hb' as [Hin Hkeep]. apply brickToKeep_alive in Hkeep.
    apply in_map_iff in Hin as (b & <- & Hb).
    rewrite Forall_forall in Hs. specialize (Hs b Hb).
    destruct (isBallBounceOnBrick _ b); [apply brick_worn_hit|]; assumption.
  - apply brick_worn_initial.
Qed.

(** X6.  In every state of the fold each brick in play is a brick of the
    grid (same id, position, width and height) with between 1 and 4 hits
    left, and its opacity is a quarter per hit left: 0.25, 0.5, 0.75 or 1. *)
Theorem bricks_fade_with_their_hits
    (rnd0 : Q) (evs : list (Event * Q)) (s : State) (b : BrickBody.t) :
  run rnd0 evs = Ok s ->
  In b (bricks s) ->
  (exists b0, In b0 initialiseBricks
              /\ BrickBody.id b = BrickBody.id b0
              /\ BrickBody.position b = BrickBody.position b0
              /\ BrickBody.width b = BrickBody.width b0
              /\ BrickBody.height b = BrickBody.height b0)
  /\ (1 <= BrickBody.numberOfHitsLeft b <= 4)%Z
  /\ BrickBody.opacity b == inject_Z (BrickBody.numberOfHitsLeft b) * (1 # 4).
Proof.
  intros Hrun Hb.
  assert (Hs : Forall brick_worn (bricks s)).
  { apply (run_invariant rnd0 (fun s => Forall brick_worn (bricks s))
             brick_worn_initial (brick_worn_step rnd0) evs s Hrun). }
  rewrite Forall_forall in Hs. destruct (Hs b Hb) as (Hgrid & Hhits & Hop).
  split; [exact Hgrid|]. split; [exact Hhits|].
  rewrite Hop. unfold Constants.opacityReduction. ring.
Qed.

Lemma bricks_fade_with_their_hits_witness :
  let s := outcome (initialState 0)
             (run 0 (ticks 2 0 ++ [(ToggleBreakout true, 0)] ++ ticks 2 0)) in
  let b := nth 7 (bricks s) (BrickBody.make 0 Vector.Zero 0 0 0 0) in
  (1 <= BrickBody.numberOfHitsLeft b <= 4)%Z
  /\ BrickBody.opacity b == inject_Z (BrickBody.numberOfHitsLeft b) * (1 # 4).
Proof.
  intros s b.
  apply (bricks_fade_with_their_hits 0
           (ticks 2 0 ++ [(ToggleBreakout true, 0)] ++ ticks 2 0) s b).
  - vm_compute. reflexivity.
  - vm_compute. do 7 right. left. reflexivity.
Defined.

(** X7.  Between two [Restart]s [bricksToRemove] only grows at its end and
    [bricks] only shrinks: after any event but [Restart] the old
    [bricksToRemove] is a prefix of the new one, and every brick in play
    was in play before, with the same id and at least as many hits left. *)
Theorem removal_list_is_append_only
    (rnd0 rnd : Q) (s : State) (eve : Event) (s' : State) :
  (forall b, eve <> Restart b) ->
  reduceState rnd0 rnd s eve = Ok s' ->
  (exists added, bricksToRemove s' = bricksToRemove s ++ added)
  /\ (forall b', In b' (bricks s') ->
        exists b, In b (bricks s)
                  /\ BrickBody.id b' = BrickBody.id b
                  /\ (BrickBody.numberOfHitsLeft b' <= BrickBody.numberOfHitsLeft b)%Z).
Proof.
  intros Hne H.
  assert (Hsame : forall l : list BrickBody.t, forall b', In b' l ->
            exists b, In b l /\ BrickBody.id b' = BrickBody.id b
                      /\ (BrickBody.numberOfHitsLeft b' <= BrickBody.numberOfHitsLeft b)%Z).
  { intros l b' Hb'. exists b'. repeat split; [assumption|lia]. }
  step_cases H; try (split; [exists []; symmetry; apply app_nil_r | apply Hsame]).
  - rewrite Hbricks, HbricksToRemove. split.
    + destruct (isBreakout s); [eexists; reflexivity|].
      exists []. symmetry. apply app_nil_r.
    + destruct (isBreakout s && _); [|apply Hsame].
      intros b' Hb'. apply filter_In in Hb' as [Hin _].
      apply in_map_iff in Hin as (b & <- & Hb).
      exists b. split; [exact Hb|].
      destruct (isBallBounceOnBrick _ b); cbn; split; try reflexivity; lia.
  - now contradiction (Hne isRestart).
Qed.

Lemma removal_list_is_append_only_witness :
  let s := outcome (initialState 0)
             (run 0 (ticks 2 0 ++ [(ToggleBreakout true, 0)] ++ ticks 3 0)) in
  let s' := outcome s (reduceState 0 0 s (Tick 5)) in
  exists added, bricksToRemove s' = bricksToRemove s ++ added.
Proof.
  intros s s'.
  apply (removal_list_is_append_only 0 0 s (Tick 5) s').
  - intros b. discriminate.
  - vm_compute. reflexivity.
Defined.

(** The collision step does not look at the flag, apart from the brick
    rules. *)
Lemma moved_with_isBreakout (s : State) (flag : bool) (elapsed : Z) (v : Vector.t) :
  moved (with_isBreakout s flag) elapsed v = with_isBreakout (moved s elapsed v) flag.
Proof. reflexivity. Qed.

(** X8.  From a state of the fold, a tick in breakout mode on which no brick
    overlaps the ball does exactly what a tick in the plain mode does: the
    two resulting states differ in the flag [isBreakout] only. *)
Theorem breakout_tick_without_hit_is_a_plain_tick
    (rnd0 : Q) (evs : list (Event * Q)) (s : State)
    (rnd : Q) (elapsed : Z) (v : Vector.t) :
  run rnd0 evs = Ok s ->
  NewtonianBody.velocity (ball s) = Some v ->
  includes_true (map (isBallBounceOnBrick (moved s elapsed v)) (bricks s)) = false ->
  tick rnd (with_isBreakout s true) elapsed
  = observe (fun s' => with_isBreakout s' true)
      (tick rnd (with_isBreakout s false) elapsed).
Proof.
  intros Hrun Hv Hhit.
  destruct (run_invariant rnd0 (fun s => bricks_alive s /\ bricks_accounted s)
              (bricks_initial rnd0) (bricks_step rnd0) evs s Hrun) as [Ha _].
  rewrite (tick_moved rnd (with_isBreakout s true) elapsed v Hv).
  rewrite (tick_moved rnd (with_isBreakout s false) elapsed v Hv).
  rewrite !moved_with_isBreakout.
  pose proof (moved_velocity s elapsed v Hv) as Hmv.
  set (m := moved s elapsed v) in *.
  unfold objInteractionHandling, NewtonianBody.the_velocity.
  cbn [with_isBreakout isBreakout ball bricks bricksToRemove].
  rewrite Hmv. cbn [bind].
  change (isBallBounceOnBrick (with_isBreakout m true)) with (isBallBounceOnBrick m).
  change (bricks m) with (bricks s).
  rewrite Hhit, (newBricksState_no_hit _ _ Hhit).
  destruct (filter_alive (bricks s) Ha) as [_ ->]. cbn [map]. rewrite app_nil_r.
  change (isballp1Endzone (with_isBreakout m true)) with (isballp1Endzone m).
  change (isballp2Endzone (with_isBreakout m true)) with (isballp2Endzone m).
  change (isballp1Endzone (with_isBreakout m false)) with (isballp1Endzone m).
  change (isballp2Endzone (with_isBreakout m false)) with (isballp2Endzone m).
  destruct (isballp1Endzone m || isballp2Endzone m); [reflexivity|].
  change (ball (with_isBreakout m true)) with (ball m).
  rewrite !(calculateBallBounce_velocity _ v _ _ _ _ Hmv). reflexivity.
Qed.

Lemma breakout_tick_without_hit_is_a_plain_tick_witness :
  let s := outcome (initialState 0) (run 0 (ticks 20 0)) in
  tick 0 (with_isBreakout s true) 20
  = observe (fun s' => with_isBreakout s' true) (tick 0 (with_isBreakout s false) 20).
Proof.
  intros s.
  apply (breakout_tick_without_hit_is_a_plain_tick 0 (ticks 20 0) s 0 20 (Vector.new (-3) 0));
    vm_compute; reflexivity.
Defined.

(** ** The game as the view sees it *)

(** X9.  The states handed to the view (the subscription ends with the first
    state whose [endOfGame] is set) always exist, at most one per event; in
    all of them both scores are between 0 and [maxScore]; in all but the
    last [endOfGame] is 0 and both scores are below [maxScore]; and a state
    with [endOfGame] set names the side whose score is [maxScore]. *)
Theorem the_view_sees_one_game (rnd0 : Q) (evs : list (Event * Q)) :
  exists l,
    sub rnd0 evs = Ok l
    /\ (List.length l <= List.length evs)%nat
    /\ (forall s, In s l ->
          (0 <= p1Score s <= Constants.maxScore)%Z
          /\ (0 <= p2Score s <= Constants.maxScore)%Z)
    /\ (forall s, In s (removelast l) ->
          endOfGame s = 0%Z
          /\ (p1Score s < Constants.maxScore)%Z /\ (p2Score s < Constants.maxScore)%Z)
    /\ (forall s, In s l -> endOfGame s <> 0%Z ->
          (endOfGame s = Constants.playerBarNum /\ p1Score s = Constants.maxScore)
          \/ (endOfGame s = Constants.computerBarNum /\ p2Score s = Constants.maxScore)).
Proof.
  destruct (subscribe_in_progress rnd0 evs (initialState rnd0))
    as (l & Hl & Hlen & Hall & Hinit).
  - apply ball_speed_ok_initial.
  - reflexivity.
  - split; vm_compute; split; discriminate.
  - reflexivity.
  - exists l. rewrite Forall_forall in Hall, Hinit.
    split; [exact Hl|]. split; [exact Hlen|]. split; [|split].
    + intros s Hs. apply (Hall s Hs).
    + intros s Hs. split; [apply (Hinit s Hs)|].
      assert (Hin : In s l).
      { clear - Hs. induction l as [|a [|b l] IH]; cbn in Hs; try contradiction.
        destruct Hs as [->|Hs]; [now left | right; apply IH, Hs]. }
      destruct (Hall s Hin) as [Hf Hr].
      destruct (in_progress_scores s Hf Hr (Hinit s Hs)). lia.
    + intros s Hs Hne. destruct (Hall s Hs) as [Hf _].
      apply (winner_names_the_winner s Hf Hne).
Qed.

(** The subscription of the game in which the computer wins every point: of
    805 events the view receives 705 states, and in the last one the
    computer has won. *)
Example sub_stops_at_maxScore :
  observe (fun l => (List.length l, option_map (fun s => (p2Score s, endOfGame s))
                                      (nth_error l 704)))
    (sub 0 (presses 5 8 ++ ticks 800 0))
  = Ok (705%nat, Some (7%Z, 2%Z)).
Proof. vm_compute. reflexivity. Qed.

(** ** What each event leaves alone *)

(** X11.  Apart from [Restart], only a tick changes the ball, the computer
    bar, the scores, [endOfGame], the bricks, [bricksToRemove] and [time];
    only a [Slide] changes the player bar; only [SetDifficulty] changes
    [computerDifficulty]; only [ToggleBreakout] changes [isBreakout] (and it
    does not touch the bricks). *)
Theorem events_change_their_own_fields
    (rnd0 rnd : Q) (s : State) (eve : Event) (s' : State) :
  reduceState rnd0 rnd s eve = Ok s' ->
  (forall b, eve <> Restart b) ->
  ((forall elapsed, eve <> Tick elapsed) ->
   ball s' = ball s /\ computerBar s' = computerBar s
   /\ p1Score s' = p1Score s /\ p2Score s' = p2Score s
   /\ endOfGame s' = endOfGame s
   /\ bricks s' = bricks s /\ bricksToRemove s' = bricksToRemove s
   /\ time s' = time s)
  /\ ((forall direction, eve <> Slide direction) -> playerBar s' = playerBar s)
  /\ ((forall difficVal, eve <> SetDifficulty difficVal) ->
      computerDifficulty s' = computerDifficulty s)
  /\ ((forall isBreak, eve <> ToggleBreakout isBreak) -> isBreakout s' = isBreakout s)
  /\ breakoutAddedEffects s' = breakoutAddedEffects s.
Proof.
  intros H Hne. step_cases H; [| |now contradiction (Hne isRestart)| |];
    repeat match goal with
           | |- _ /\ _ => split
           | |- (forall _, _ <> _) -> _ => intros Hn
           end;
    try reflexivity; try assumption;
    exfalso; eapply Hn; reflexivity.
Qed.

Lemma events_change_their_own_fields_witness :
  let s := initialState 0 in
  let s' := outcome s (reduceState 0 0 s (ToggleBreakout true)) in
  ball s' = ball s /\ computerBar s' = computerBar s
  /\ p1Score s' = p1Score s /\ p2Score s' = p2Score s
  /\ endOfGame s' = endOfGame s
  /\ bricks s' = bricks s /\ bricksToRemove s' = bricksToRemove s
  /\ time s' = time s.
Proof.
  intros s s'.
  apply (events_change_their_own_fields 0 0 s (ToggleBreakout true) s').
  - reflexivity.
  - intros b. discriminate.
  - intros elapsed. discriminate.
Defined.

(** ** The computer bar *)



(** ** Restart forgets the past *)

(** X14.  A fold with a [Restart] in it ends where the fold of the events
    after that [Restart] ends: nothing of what came before survives. *)
Theorem Restart_forgets_the_past
    (rnd0 : Q) (evs1 : list (Event * Q)) (isRestart : bool) (rnd : Q)
    (evs2 : list (Event * Q)) :
  run rnd0 (evs1 ++ (Restart isRestart, rnd) :: evs2) = run rnd0 evs2.
Proof.
  unfold run. rewrite scan_app.
  destruct (scan_total rnd0 evs1 (initialState rnd0) (ball_speed_ok_initial rnd0))
    as [s ->].
  reflexivity.
Qed.
